(** * Exoplanet classifier: the /predict pipeline of [app.py]

    A shallow embedding of the Flask handler [predict] and of the label
    mapping [map_to_main_category], with the properties of the request
    validation, label decoding and confidence aggregation stages.

    Modelling conventions.
    - A Python [str] is a Rocq [string]; labels are taken to be ASCII, the
      alphabet of the dispositions the encoder is trained on.  [str.upper]
      maps a-z to A-Z, [str.strip] removes the ASCII characters for which
      [str.isspace] holds (9-13, 28-32); other characters are kept as they
      are.
    - A Python [float] is an exact value: a rational, an infinity or nan.
      Rounding is not modelled.
    - A Python [dict] is an association list in insertion order.
    - Exceptions are values of [exn]; code that may raise lives in the
      monad [M], which also reads the module-level globals and records
      the calls made to the loaded artifacts. *)

From Stdlib Require Import String Ascii List ZArith QArith Qabs Bool Lia.
From Stdlib Require Import Setoid Morphisms.
Import ListNotations.

Local Open Scope list_scope.
Local Open Scope string_scope.

(** ** Python strings *)

Module PyStr.

Definition is_lower (c : ascii) : bool :=
  let n := nat_of_ascii c in (97 <=? n)%nat && (n <=? 122)%nat.

Definition upper_char (c : ascii) : ascii :=
  if is_lower c then ascii_of_nat (nat_of_ascii c - 32) else c.

(** [s.upper()] *)
Fixpoint upper (s : string) : string :=
  match s with
  | EmptyString => EmptyString
  | String c s' => String (upper_char c) (upper s')
  end.

(** [c.isspace()] on ASCII: tab, newline, vertical tab, form feed, carriage
    return, the four separators 28-31 and the space. *)
Definition is_space (c : ascii) : bool :=
  let n := nat_of_ascii c in
  ((9 <=? n)%nat && (n <=? 13)%nat) || ((28 <=? n)%nat && (n <=? 32)%nat).

Fixpoint lstrip (s : string) : string :=
  match s with
  | EmptyString => EmptyString
  | String c s' => if is_space c then lstrip s' else s
  end.

Definition is_empty (s : string) : bool :=
  match s with EmptyString => true | _ => false end.

Fixpoint rstrip (s : string) : string :=
  match s with
  | EmptyString => EmptyString
  | String c s' =>
      let r := rstrip s' in
      if is_space c && is_empty r then EmptyString else String c r
  end.

(** [s.strip()] *)
Definition strip (s : string) : string := rstrip (lstrip s).

(** [p] is an initial segment of [s]. *)
Fixpoint starts_with (p s : string) : bool :=
  match p, s with
  | EmptyString, _ => true
  | String _ _, EmptyString => false
  | String a p', String b s' => Ascii.eqb a b && starts_with p' s'
  end.

(** [kw in s] on strings: [kw] occurs in [s] as a contiguous substring. *)
Fixpoint contains (kw s : string) : bool :=
  starts_with kw s ||
  match s with
  | EmptyString => false
  | String _ s' => contains kw s'
  end.

(** The declarative reading of [kw in s]. *)
Definition Substring (kw s : string) : Prop :=
  exists pre post, s = pre ++ kw ++ post.

(** A non-empty keyword that neither starts nor ends with white space. *)
Definition head_not_space (kw : string) : bool :=
  match kw with
  | EmptyString => false
  | String a _ => negb (is_space a)
  end.

Fixpoint last_not_space (kw : string) : bool :=
  match kw with
  | EmptyString => true
  | String a EmptyString => negb (is_space a)
  | String _ kw' => last_not_space kw'
  end.

End PyStr.

(** ** The label mapping, [app.py] lines 35-57 *)

Definition CONFIRMED_PLANET : string := "Confirmed Planet".
Definition CANDIDATE_PLANET : string := "Candidate Planet".
Definition FALSE_POSITIVE : string := "False Positive (Not a Planet)".

Definition candidate_keywords : list string := ["CANDIDATE"; "APC"; "CP"; "KP"].
Definition false_keywords : list string := ["FALSE"; "FA"; "REFUTED"; "NOT"].

(** [label_upper = str(label).upper().strip()] *)
Definition label_upper (label : string) : string :=
  PyStr.strip (PyStr.upper label).

(** [any(keyword in s for keyword in kws)] *)
Definition any_keyword_in (kws : list string) (s : string) : bool :=
  existsb (fun keyword => PyStr.contains keyword s) kws.

Definition map_to_main_category (label : string) : string :=
  let label_upper := label_upper label in
  if PyStr.contains "CONFIRMED" label_upper then CONFIRMED_PLANET
  else if any_keyword_in candidate_keywords label_upper then CANDIDATE_PLANET
  else if any_keyword_in false_keywords label_upper then FALSE_POSITIVE
  else label.

(** ** Python values *)

(** A [float]: exact, with the three special values. *)
Inductive pyfloat : Type :=
| FNan
| FInf (negative : bool)
| FFin (q : Q).

(** [x <= 0]; every comparison with nan is false. *)
Definition fle0 (x : pyfloat) : bool :=
  match x with
  | FNan => false
  | FInf negative => negative
  | FFin q => Qle_bool q 0
  end.


(** [x + y] *)
Definition fadd (x y : pyfloat) : pyfloat :=
  match x, y with
  | FNan, _ | _, FNan => FNan
  | FInf s, FInf t => if Bool.eqb s t then FInf s else FNan
  | FInf s, FFin _ => FInf s
  | FFin _, FInf t => FInf t
  | FFin p, FFin q => FFin (p + q)
  end.

Definition fzero : pyfloat := FFin 0.

(** What [request.get_json()] hands to the handler: [None], or a decoded
    JSON document.  An object is a [dict] with [str] keys. *)
#[warnings="-register-all"]
Inductive pyval : Type :=
| PyNone
| PyBool (b : bool)
| PyInt (z : Z)
| PyFloat (x : pyfloat)
| PyStr (s : string)
| PyList (items : list pyval)
| PyDict (items : list (string * pyval)).

(** Keys of the dictionaries the handler indexes. *)
Inductive pykey : Type :=
| KStr (s : string)
| KInt (i : Z).

Inductive exn : Type :=
| ValueError (literal : string)
| TypeError
| OverflowError
| KeyError (key : pykey)
| AttributeError.

Inductive result (A : Type) : Type :=
| Ret (a : A)
| Raise (e : exn).

Arguments Ret {A} a.
Arguments Raise {A} e.

(** ** Dictionaries *)

Module Dict.

Section WithKey.
Context {K V : Type} (eqb : K -> K -> bool).

(** [d.get(k)] *)
Fixpoint get (k : K) (d : list (K * V)) : option V :=
  match d with
  | [] => None
  | (k', v) :: rest => if eqb k' k then Some v else get k rest
  end.

(** [d[k] = v]: an existing key keeps its place. *)
Fixpoint set (k : K) (v : V) (d : list (K * V)) : list (K * V) :=
  match d with
  | [] => [(k, v)]
  | (k', v') :: rest =>
      if eqb k' k then (k', v) :: rest else (k', v') :: set k v rest
  end.

(** [k in d] *)
Definition mem (k : K) (d : list (K * V)) : bool :=
  match get k d with Some _ => true | None => false end.
End WithKey.

End Dict.

(** [enumerate(xs)] *)
Fixpoint enumerate_from {A : Type} (i : Z) (xs : list A) : list (Z * A) :=
  match xs with
  | [] => []
  | x :: rest => (i, x) :: enumerate_from (i + 1) rest
  end.

Definition enumerate {A : Type} (xs : list A) : list (Z * A) :=
  enumerate_from 0 xs.

(** ** Truth value, membership, indexing and [float()] *)

(** [bool(v)], as in [if not data]. *)
Definition truthy (v : pyval) : bool :=
  match v with
  | PyNone => false
  | PyBool b => b
  | PyInt z => negb (z =? 0)%Z
  | PyFloat (FFin q) => negb (Qeq_bool q 0)
  | PyFloat _ => true
  | PyStr s => negb (PyStr.is_empty s)
  | PyList items => match items with [] => false | _ => true end
  | PyDict items => match items with [] => false | _ => true end
  end.

(** [field in data] for a [str] field. *)
Definition py_in (field : string) (data : pyval) : result bool :=
  match data with
  | PyDict items => Ret (Dict.mem String.eqb field items)
  | PyList items =>
      Ret (existsb (fun v => match v with
                             | PyStr s => String.eqb s field
                             | _ => false
                             end) items)
  | PyStr s => Ret (PyStr.contains field s)
  | PyNone | PyBool _ | PyInt _ | PyFloat _ => Raise TypeError
  end.

(** [data[field]] for a [str] field. *)
Definition py_getitem (data : pyval) (field : string) : result pyval :=
  match data with
  | PyDict items =>
      match Dict.get String.eqb field items with
      | Some v => Ret v
      | None => Raise (KeyError (KStr field))
      end
  | _ => Raise TypeError
  end.

(** The largest magnitude below which an [int] converts to a [float]:
    from [2^1024 - 2^970] on, the nearest double is infinite. *)
Definition float_overflow_threshold : Z := (2 ^ 1024 - 2 ^ 970)%Z.

Section Coercion.
(** [float(s)] on a [str] is the runtime's literal parser: [None] when it
    raises [ValueError]. *)
Variable float_of_str : string -> option pyfloat.

(** [float(v)] *)
Definition py_float (v : pyval) : result pyfloat :=
  match v with
  | PyNone => Raise TypeError
  | PyBool b => Ret (FFin (if b then 1 else 0))
  | PyInt z =>
      if (Z.abs z <? float_overflow_threshold)%Z
      then Ret (FFin (inject_Z z))
      else Raise OverflowError
  | PyFloat x => Ret x
  | PyStr s =>
      match float_of_str s with
      | Some x => Ret x
      | None => Raise (ValueError s)
      end
  | PyList _ | PyDict _ => Raise TypeError
  end.
End Coercion.

(** ** The loaded artifacts *)

(** A feature row, [np.array([[...]])]. *)
Definition array : Type := list pyfloat.

(** [model]: [predict_proba] is absent on classifiers without probability
    output, and asking for it raises [AttributeError]. *)
Record Classifier : Type := {
  model_predict : array -> Z;
  model_predict_proba : option (array -> list pyfloat)
}.

Record Scaler : Type := {
  scaler_transform : array -> array
}.

Record LabelEncoder : Type := {
  classes_ : list string;
  inverse_transform : Z -> string
}.

(** [PERFORMANCE_METRICS] *)
Record Metrics : Type := {
  accuracy : Q;
  precision : Q;
  recall : Q;
  f1_score : Q;
  confusion_matrix : list (list Z);
  class_names : list string
}.

(** The module-level names the handlers read. *)
Record globals : Type := {
  model : option Classifier;
  scaler : option Scaler;
  label_encoder : option LabelEncoder;
  CLASS_LABELS : list (Z * string);
  PERFORMANCE_METRICS : Metrics
}.

(** What [joblib.load] finds on disk; [None] is [FileNotFoundError]. *)
Record pickles : Type := {
  exoplanet_classifier_rf : option Classifier;
  exoplanet_scaler : option Scaler;
  exoplanet_label_encoder : option LabelEncoder
}.

Definition three_class_matrix : list (list Z) :=
  [[450; 30; 20]; [25; 380; 45]; [15; 35; 400]]%Z.

Definition three_class_names : list string :=
  ["False Positive"; "Candidate"; "Confirmed"].

(** Lines 60-71. *)
Definition static_metrics : Metrics := {|
  accuracy := 94 # 100;
  precision := 92 # 100;
  recall := 91 # 100;
  f1_score := 915 # 1000;
  confusion_matrix := three_class_matrix;
  class_names := three_class_names
|}.

(** Lines 93-97. *)
Definition default_class_labels : list (Z * string) :=
  [(0%Z, FALSE_POSITIVE); (1%Z, CANDIDATE_PLANET); (2%Z, CONFIRMED_PLANET)].

(** Module initialisation, lines 19-97. *)
Definition startup (p : pickles) : globals :=
  match exoplanet_label_encoder p with
  | Some le => {|
      model := exoplanet_classifier_rf p;
      scaler := exoplanet_scaler p;
      label_encoder := Some le;
      CLASS_LABELS := enumerate (classes_ le);
      PERFORMANCE_METRICS := {|
        accuracy := accuracy static_metrics;
        precision := precision static_metrics;
        recall := recall static_metrics;
        f1_score := f1_score static_metrics;
        confusion_matrix := three_class_matrix;
        class_names := three_class_names
      |}
    |}
  | None => {|
      model := exoplanet_classifier_rf p;
      scaler := exoplanet_scaler p;
      label_encoder := None;
      CLASS_LABELS := default_class_labels;
      PERFORMANCE_METRICS := static_metrics
    |}
  end.

(** ** Effects *)

(** Calls on the artifacts, calls of the label mapping, and the line the
    handler prints. *)
Inductive event : Type :=
| Transform (x : array)
| Predict (x : array)
| PredictProba (x : array)
| InverseTransform (i : Z)
| MapToMainCategory (label : string)
| Print (detailed_label prediction_label : string).

(** A computation reads and hands on the globals, records its events and
    returns or raises. *)
Definition M (A : Type) : Type := globals -> result A * globals * list event.

Definition ret {A : Type} (a : A) : M A := fun g => (Ret a, g, []).

Definition raise {A : Type} (e : exn) : M A := fun g => (Raise e, g, []).

Definition bind {A B : Type} (c : M A) (k : A -> M B) : M B :=
  fun g =>
    match c g with
    | (Ret a, g', t) =>
        match k a g' with
        | (r, g'', t') => (r, g'', t ++ t')%list
        end
    | (Raise e, g', t) => (Raise e, g', t)
    end.

Definition lift {A : Type} (r : result A) : M A := fun g => (r, g, []).

(** Reading a module-level name. *)
Definition global {A : Type} (name : globals -> A) : M A :=
  fun g => (Ret (name g), g, []).

Definition emit (e : event) : M unit := fun g => (Ret tt, g, [e]).

(** [try: c / except ...: h e] with [handles] the exception filter. *)
Definition try_except {A : Type} (c : M A) (handles : exn -> bool)
    (h : exn -> M A) : M A :=
  fun g =>
    match c g with
    | (Ret a, g', t) => (Ret a, g', t)
    | (Raise e, g', t) =>
        if handles e then
          match h e g' with
          | (r, g'', t') => (r, g'', t ++ t')%list
          end
        else (Raise e, g', t)
    end.

Declare Scope monad_scope.
Delimit Scope monad_scope with monad.

Notation "x <- c ;; k" := (bind c (fun x => k))
  (at level 61, c at next level, right associativity) : monad_scope.
Notation "c ;; k" := (bind c (fun _ => k))
  (at level 61, right associativity) : monad_scope.

Local Open Scope monad_scope.

Definition is_AttributeError (e : exn) : bool :=
  match e with AttributeError => true | _ => false end.

Definition is_ValueError (e : exn) : bool :=
  match e with ValueError _ => true | _ => false end.

(** ** Responses *)

(** An error text: a literal, or one formatted around [str(e)]. *)
Inductive message : Type :=
| Text (s : string)
| InvalidInputValue (e : exn)
| PredictionError (e : exn)
| MetricsError (e : exn).

Definition pydict : Type := list (string * pyfloat).

(** The [confidence] entry: detailed and grouped with a label encoder, one
    flat dictionary without. *)
Inductive confidence : Type :=
| DetailedGrouped (detailed grouped : pydict)
| Flat (by_label : pydict).

Record input_echo : Type := {
  orbital_period : pyfloat;
  transit_duration : pyfloat;
  planetary_radius : pyfloat
}.

Inductive body : Type :=
| Error (error : message)
| Prediction (prediction : string) (input : input_echo)
    (confidence : option confidence)
| Banner
| MetricsBody (metrics : Metrics)
| Health (model_loaded scaler_loaded label_encoder_loaded : bool).

(** A JSON body and the HTTP status. *)
Definition response : Type := body * Z.

(** ** The /predict handler, lines 113-234 *)

Definition required_fields : list string :=
  ["orbital_period"; "transit_duration"; "planetary_radius"].

(** Lines 146-148: the first required field that is not in [data], if any. *)
Fixpoint first_missing (data : pyval) (fields : list string)
    : result (option string) :=
  match fields with
  | [] => Ret None
  | field :: rest =>
      match py_in field data with
      | Raise e => Raise e
      | Ret false => Ret (Some field)
      | Ret true => first_missing data rest
      end
  end.

(** Line 177 and line 201: a call of the label mapping. *)
Definition call_map_to_main_category (label : string) : M string :=
  emit (MapToMainCategory label) ;; ret (map_to_main_category label).

(** Lines 188-191: the dictionary comprehension over
    [enumerate(probabilities)]; a repeated label keeps its first place and
    takes the last probability. *)
Fixpoint detailed_confidence_from (le : LabelEncoder)
    (items : list (Z * pyfloat)) (acc : pydict) : M pydict :=
  match items with
  | [] => ret acc
  | (i, prob) :: rest =>
      emit (InverseTransform i) ;;
      detailed_confidence_from le rest
        (Dict.set String.eqb (inverse_transform le i) prob acc)
  end.

(** Lines 194-198. *)
Definition empty_grouped_confidence : pydict :=
  [(CONFIRMED_PLANET, fzero); (CANDIDATE_PLANET, fzero);
   (FALSE_POSITIVE, fzero)].

(** Lines 200-202: [grouped_confidence[main_category] += prob] reads the
    entry first, so a category that is no key raises [KeyError]. *)
Fixpoint group_confidence (items : pydict) (grouped_confidence : pydict)
    : M pydict :=
  match items with
  | [] => ret grouped_confidence
  | (label, prob) :: rest =>
      main_category <- call_map_to_main_category label ;;
      match Dict.get String.eqb main_category grouped_confidence with
      | None => raise (KeyError (KStr main_category))
      | Some old =>
          group_confidence rest
            (Dict.set String.eqb main_category (fadd old prob)
               grouped_confidence)
      end
  end.

(** Lines 209-212: [CLASS_LABELS[i]] raises [KeyError] on an index that is
    no key. *)
Fixpoint flat_confidence_from (items : list (Z * pyfloat)) (acc : pydict)
    : M pydict :=
  match items with
  | [] => ret acc
  | (i, prob) :: rest =>
      labels <- global CLASS_LABELS ;;
      match Dict.get Z.eqb i labels with
      | None => raise (KeyError (KInt i))
      | Some label =>
          flat_confidence_from rest (Dict.set String.eqb label prob acc)
      end
  end.

(** Lines 184-212, the body of the inner [try]. *)
Definition confidence_try (mdl : Classifier) (features : array)
    : M (option confidence) :=
  match model_predict_proba mdl with
  | None => raise AttributeError
  | Some predict_proba =>
      emit (PredictProba features) ;;
      let probabilities := predict_proba features in
      le <- global label_encoder ;;
      match le with
      | Some le =>
          detailed_confidence <-
            detailed_confidence_from le (enumerate probabilities) [] ;;
          grouped_confidence <-
            group_confidence detailed_confidence empty_grouped_confidence ;;
          ret (Some (DetailedGrouped detailed_confidence grouped_confidence))
      | None =>
          flat <- flat_confidence_from (enumerate probabilities) [] ;;
          ret (Some (Flat flat))
      end
  end.

(** [if confidence:] on line 226. *)
Definition confidence_truthy (c : option confidence) : bool :=
  match c with
  | None => false
  | Some (DetailedGrouped _ _) => true
  | Some (Flat []) => false
  | Some (Flat (_ :: _)) => true
  end.

(** ** The routes *)

Inductive request : Type :=
| GET_root
| POST_predict (data : pyval)
| GET_performance
| GET_health
| Unmatched.

Definition is_some {A : Type} (o : option A) : bool :=
  match o with Some _ => true | None => false end.

Section Handlers.
Variable float_of_str : string -> option pyfloat.

(** Lines 164-229: inference, decoding and the response, once the three
    features are validated. *)
Definition predict_features (mdl : Classifier) (input : input_echo)
    : M response :=
  let features :=
    [orbital_period input; transit_duration input; planetary_radius input]
  in
  sc <- global scaler ;;
  features <-
    match sc with
    | Some sc => emit (Transform features) ;; ret (scaler_transform sc features)
    | None => ret features
    end ;;
  emit (Predict features) ;;
  let prediction := model_predict mdl features in
  le <- global label_encoder ;;
  prediction_label <-
    match le with
    | Some le =>
        emit (InverseTransform prediction) ;;
        let detailed_label := inverse_transform le prediction in
        prediction_label <- call_map_to_main_category detailed_label ;;
        emit (Print detailed_label prediction_label) ;;
        ret prediction_label
    | None =>
        labels <- global CLASS_LABELS ;;
        ret (match Dict.get Z.eqb prediction labels with
             | Some label => label
             | None => "Unknown"
             end)
    end ;;
  confidence <-
    try_except (confidence_try mdl features) is_AttributeError
      (fun _ => ret None) ;;
  ret (Prediction prediction_label input
         (if confidence_truthy confidence then confidence else None),
       200%Z).

(** Lines 132-229, the body of the outer [try]. *)
Definition predict_try (data : pyval) : M response :=
  mdl <- global model ;;
  match mdl with
  | None =>
      ret (Error (Text "Model not loaded. Please ensure model.pkl exists."),
           500%Z)
  | Some mdl =>
  if negb (truthy data) then ret (Error (Text "No data provided"), 400%Z)
  else
  missing <- lift (first_missing data required_fields) ;;
  match missing with
  | Some field =>
      ret (Error (Text ("Missing required field: " ++ field)), 400%Z)
  | None =>
  v <- lift (py_getitem data "orbital_period") ;;
  orbital_period <- lift (py_float float_of_str v) ;;
  v <- lift (py_getitem data "transit_duration") ;;
  transit_duration <- lift (py_float float_of_str v) ;;
  v <- lift (py_getitem data "planetary_radius") ;;
  planetary_radius <- lift (py_float float_of_str v) ;;
  if fle0 orbital_period then
    ret (Error (Text "Orbital period must be positive"), 400%Z)
  else if fle0 transit_duration then
    ret (Error (Text "Transit duration must be positive"), 400%Z)
  else if fle0 planetary_radius then
    ret (Error (Text "Planetary radius must be positive"), 400%Z)
  else
    predict_features mdl
      {| orbital_period := orbital_period;
         transit_duration := transit_duration;
         planetary_radius := planetary_radius |}
  end
  end.

(** Lines 231-234: the two [except] clauses, the first that matches. *)
Definition predict_except (e : exn) : M response :=
  if is_ValueError e then ret (Error (InvalidInputValue e), 400%Z)
  else ret (Error (PredictionError e), 500%Z).

Definition predict (data : pyval) : M response :=
  try_except (predict_try data) (fun _ => true) predict_except.

(** The other routes and the dispatcher. *)

(** Lines 100-110. *)
Definition home : M response := ret (Banner, 200%Z).

(** Lines 237-247. *)
Definition performance : M response :=
  try_except
    (metrics <- global PERFORMANCE_METRICS ;; ret (MetricsBody metrics, 200%Z))
    (fun _ => true)
    (fun e => ret (Error (MetricsError e), 500%Z)).

(** Lines 250-258. *)
Definition health : M response :=
  mdl <- global model ;;
  sc <- global scaler ;;
  le <- global label_encoder ;;
  ret (Health (is_some mdl) (is_some sc) (is_some le), 200%Z).

(** Lines 262-264. *)
Definition not_found : M response :=
  ret (Error (Text "Endpoint not found"), 404%Z).

Definition dispatch (r : request) : M response :=
  match r with
  | GET_root => home
  | POST_predict data => predict data
  | GET_performance => performance
  | GET_health => health
  | Unmatched => not_found
  end.

(** Lines 267-269: what the application answers when a view raises. *)
Definition internal_error : response :=
  (Error (Text "Internal server error"), 500%Z).

(** One request against the process state: the response, the state the
    next request finds, and the events of this one. *)
Definition handle (r : request) (g : globals)
    : response * globals * list event :=
  match dispatch r g with
  | (Ret resp, g', t) => (resp, g', t)
  | (Raise _, g', t) => (internal_error, g', t)
  end.

End Handlers.

(** ** Reference notions used in the statements *)

(** A label that one of the three keyword rules classifies. *)
Definition keyword_matched (label : string) : bool :=
  let u := label_upper label in
  PyStr.contains "CONFIRMED" u
  || any_keyword_in candidate_keywords u
  || any_keyword_in false_keywords u.


(** The decoder-less index table as the specification words it. *)
Definition static_category (i : Z) : string :=
  if (i =? 0)%Z then FALSE_POSITIVE
  else if (i =? 1)%Z then CANDIDATE_PLANET
  else if (i =? 2)%Z then CONFIRMED_PLANET
  else "Unknown".


(** The coercions of the three fields, in order; the first failure,
    if any. *)
Definition coerce_fields (float_of_str : string -> option pyfloat)
    (v1 v2 v3 : pyval) : result input_echo :=
  match py_float float_of_str v1 with
  | Raise e => Raise e
  | Ret x1 =>
      match py_float float_of_str v2 with
      | Raise e => Raise e
      | Ret x2 =>
          match py_float float_of_str v3 with
          | Raise e => Raise e
          | Ret x3 => Ret (Build_input_echo x1 x2 x3)
          end
      end
  end.

(** The text of the first range check that fails, if any. *)
Definition range_failure (input : input_echo) : option string :=
  if fle0 (orbital_period input) then Some "Orbital period must be positive"
  else if fle0 (transit_duration input)
       then Some "Transit duration must be positive"
       else if fle0 (planetary_radius input)
            then Some "Planetary radius must be positive"
            else None.

(** The feature row the classifier sees. *)
Definition model_input (g : globals) (input : input_echo) : array :=
  let features :=
    [orbital_period input; transit_duration input; planetary_radius input]
  in
  match scaler g with
  | Some sc => scaler_transform sc features
  | None => features
  end.

(** The label the response carries for the features [input]. *)
Definition prediction_label_of (g : globals) (mdl : Classifier)
    (input : input_echo) : string :=
  let prediction := model_predict mdl (model_input g input) in
  match label_encoder g with
  | Some le => map_to_main_category (inverse_transform le prediction)
  | None =>
      match Dict.get Z.eqb prediction (CLASS_LABELS g) with
      | Some label => label
      | None => "Unknown"
      end
  end.

(** The detailed distribution built from the classifier's probabilities. *)
Definition detailed_of (le : LabelEncoder) (items : list (Z * pyfloat))
    (acc : pydict) : pydict :=
  fold_left
    (fun d item =>
       Dict.set String.eqb (inverse_transform le (fst item)) (snd item) d)
    items acc.

(** An event of raw-label decoding or of the keyword decision function. *)
Definition is_decoding (e : event) : bool :=
  match e with
  | InverseTransform _ | MapToMainCategory _ | Print _ _ => true
  | Transform _ | Predict _ | PredictProba _ => false
  end.

(** A request for per-class probabilities. *)
Definition is_probability_call (e : event) : bool :=
  match e with
  | PredictProba _ => true
  | _ => false
  end.

(** An event of inference: a call on the scaler or on the classifier. *)
Definition is_inference (e : event) : bool :=
  match e with
  | Transform _ | Predict _ | PredictProba _ => true
  | InverseTransform _ | MapToMainCategory _ | Print _ _ => false
  end.

(** ** Sample artifacts and requests *)

Module Sample.

(** Python's [float] on the strings of the samples: "2.1" is a literal,
    "abc" is not. *)
Definition float_of_str (s : string) : option pyfloat :=
  if String.eqb s "2.1" then Some (FFin (21 # 10)) else None.

(** A classifier with probability output over two classes. *)
Definition two_class_forest : Classifier := {|
  model_predict := fun _ => 1%Z;
  model_predict_proba := Some (fun _ => [FFin (7 # 10); FFin (3 # 10)])
|}.

(** A classifier without [predict_proba]. *)
Definition bare_classifier (prediction : Z) : Classifier := {|
  model_predict := fun _ => prediction;
  model_predict_proba := None
|}.

(** An encoder over the given classes, decoding an index to its class. *)
Definition encoder_of (classes : list string) : LabelEncoder := {|
  classes_ := classes;
  inverse_transform := fun i => nth (Z.to_nat i) classes ""
|}.

Definition halving_scaler : Scaler := {|
  scaler_transform := map (fun x => match x with
                                    | FFin q => FFin (q / 2)
                                    | _ => x
                                    end)
|}.

(** [{"orbital_period": 10.5, "transit_duration": "2.1",
     "planetary_radius": 1}] *)
Definition good_body : pyval :=
  PyDict [("orbital_period", PyFloat (FFin (105 # 10)));
          ("transit_duration", PyStr "2.1");
          ("planetary_radius", PyInt 1)].

Definition good_input : input_echo := {|
  orbital_period := FFin (105 # 10);
  transit_duration := FFin (21 # 10);
  planetary_radius := FFin (inject_Z 1)
|}.

(** [{"orbital_period": null, "transit_duration": 2, "planetary_radius": 1}] *)
Definition null_field_body : pyval :=
  PyDict [("orbital_period", PyNone);
          ("transit_duration", PyInt 2);
          ("planetary_radius", PyInt 1)].

(** The body above against a classifier with two classes, no scaler, and
    an encoder whose second class is the disposition "FP". *)
Definition fp_pickles : pickles := {|
  exoplanet_classifier_rf := Some two_class_forest;
  exoplanet_scaler := None;
  exoplanet_label_encoder := Some (encoder_of ["CONFIRMED"; "FP"])
|}.

(** A classifier without probability output, a scaler and an encoder. *)
Definition bare_pickles : pickles := {|
  exoplanet_classifier_rf := Some (bare_classifier 1);
  exoplanet_scaler := Some halving_scaler;
  exoplanet_label_encoder := Some (encoder_of ["CONFIRMED"; "CP"; "FA"])
|}.

(** A classifier without probability output and no encoder. *)
Definition no_encoder_pickles (prediction : Z) : pickles := {|
  exoplanet_classifier_rf := Some (bare_classifier prediction);
  exoplanet_scaler := None;
  exoplanet_label_encoder := None
|}.

(** Nothing was found on disk. *)
Definition no_pickles : pickles := {|
  exoplanet_classifier_rf := None;
  exoplanet_scaler := None;
  exoplanet_label_encoder := None
|}.

End Sample.

(** Two floats denote the same value. *)
Definition same_value (x y : pyfloat) : Prop :=
  match x, y with
  | FNan, FNan => True
  | FInf s, FInf t => s = t
  | FFin p, FFin q => p == q
  | _, _ => False
  end.




(** The grouped dictionary with the given three buckets. *)
Definition grouped_of (confirmed candidate false_positive : pyfloat)
    : pydict :=
  [(CONFIRMED_PLANET, confirmed); (CANDIDATE_PLANET, candidate);
   (FALSE_POSITIVE, false_positive)].

(** One step of the loop on a classified label: its probability goes to
    the bucket of its category. *)
Definition step_bucket (category : string) (prob a b c : pyfloat)
    : pydict :=
  if String.eqb category CONFIRMED_PLANET then grouped_of (fadd a prob) b c
  else if String.eqb category CANDIDATE_PLANET
       then grouped_of a (fadd b prob) c
       else grouped_of a b (fadd c prob).

(** The events of mapping each label of a distribution. *)
Definition mapping_events (d : pydict) : list event :=
  map (fun item => MapToMainCategory (fst item)) d.

(** A run of the inference stage ends in a 200 answer or in [KeyError]. *)
Definition answered_or_KeyError (r : result response) : Prop :=
  (exists label input c, r = Ret (Prediction label input c, 200%Z))
  \/ (exists key, r = Raise (KeyError key)).

(** The globals are handed on as they were found. *)
Definition preserves_globals {A : Type} (c : M A) : Prop :=
  forall g, snd (fst (c g)) = g.

(** ** Further notions for the properties of the whole module *)

(** A string of white space only. *)
Fixpoint all_space (s : string) : bool :=
  match s with
  | EmptyString => true
  | String c s' => PyStr.is_space c && all_space s'
  end.

(** The three categories, in the order of the grouped dictionary. *)
Definition main_categories : list string :=
  [CONFIRMED_PLANET; CANDIDATE_PLANET; FALSE_POSITIVE].

(** The probabilities of the labels of [d] that map to [category], summed
    in the order of [d]. *)
Definition category_mass (category : string) (d : pydict) : pyfloat :=
  fold_left fadd
    (map snd
       (filter (fun item =>
                  String.eqb (map_to_main_category (fst item)) category) d))
    fzero.

(** The calls on the scaler and the classifier that a request passing
    validation with the features [input] makes, in order. *)
Definition expected_calls (g : globals) (mdl : Classifier)
    (input : input_echo) : list event :=
  let raw :=
    [orbital_period input; transit_duration input; planetary_radius input]
  in
  ((match scaler g with
    | Some _ => [Transform raw]
    | None => []
    end)
   ++ [Predict (model_input g input)]
   ++ (match model_predict_proba mdl with
       | Some _ => [PredictProba (model_input g input)]
       | None => []
       end))%list.


(** The answers given before inference, with no event. *)
Definition rejected (resp : response) : Prop :=
  resp = (Error (Text "No data provided"), 400%Z)
  \/ (exists field,
        In field required_fields
        /\ resp = (Error (Text ("Missing required field: " ++ field)),
                   400%Z))
  \/ (exists s, resp = (Error (InvalidInputValue (ValueError s)), 400%Z))
  \/ (exists e, is_ValueError e = false
                /\ resp = (Error (PredictionError e), 500%Z))
  \/ (exists text, PyStr.contains "positive" text = true
                   /\ resp = (Error (Text text), 400%Z)).

(** ** Further sample requests *)

Module Examples.

(** [["orbital_period", "transit_duration", "planetary_radius"]] *)
Definition names_list_body : pyval :=
  PyList [PyStr "orbital_period"; PyStr "transit_duration";
          PyStr "planetary_radius"].

(** [{"orbital_period": 1, "planetary_radius": 2}] *)
Definition no_duration_items : list (string * pyval) :=
  [("orbital_period", PyInt 1); ("planetary_radius", PyInt 2)].

(** The fields of [Sample.good_body]. *)
Definition good_items : list (string * pyval) :=
  [("orbital_period", PyFloat (FFin (105 # 10)));
   ("transit_duration", PyStr "2.1");
   ("planetary_radius", PyInt 1)].

(** The same three values in another order, next to a fourth field. *)
Definition reordered_items : list (string * pyval) :=
  [("note", PyStr "KOI-7"); ("planetary_radius", PyInt 1);
   ("transit_duration", PyStr "2.1");
   ("orbital_period", PyFloat (FFin (105 # 10)))].

(** [{"orbital_period": -5, "transit_duration": "abc",
     "planetary_radius": 1}] *)
Definition abc_items : list (string * pyval) :=
  [("orbital_period", PyInt (-5)); ("transit_duration", PyStr "abc");
   ("planetary_radius", PyInt 1)].



(** A classifier with probabilities over three classes, and an encoder
    whose classes are all classified. *)
Definition three_class_forest : Classifier := {|
  model_predict := fun _ => 1%Z;
  model_predict_proba :=
    Some (fun _ => [FFin (1 # 2); FFin (1 # 4); FFin (1 # 4)])
|}.

Definition classified_pickles : pickles := {|
  exoplanet_classifier_rf := Some three_class_forest;
  exoplanet_scaler := Some Sample.halving_scaler;
  exoplanet_label_encoder :=
    Some (Sample.encoder_of ["CONFIRMED"; "CP"; "FA"])
|}.


End Examples.



(** * Properties *)

(** ** Substrings *)

Module PyStrFacts.
Import PyStr.

Lemma starts_with_app (p t : string) : starts_with p (p ++ t) = true.
Proof.
  induction p as [|a p IH]; simpl; [reflexivity|].
  now rewrite Ascii.eqb_refl, IH.
Qed.

Lemma starts_with_inv (p s : string) :
  starts_with p s = true -> exists t, s = p ++ t.
Proof.
  revert s; induction p as [|a p IH]; intros s H.
  - now exists s.
  - destruct s as [|b s]; simpl in H; [discriminate|].
    apply andb_true_iff in H as [Hab Hps].
    apply Ascii.eqb_eq in Hab; subst b.
    destruct (IH _ Hps) as [t ->]. now exists t.
Qed.

Lemma starts_with_contains (kw s : string) :
  starts_with kw s = true -> contains kw s = true.
Proof. intros H. destruct s; simpl; now rewrite H. Qed.

Lemma contains_Substring (kw s : string) :
  contains kw s = true <-> Substring kw s.
Proof.
  split.
  - induction s as [|c s IH]; simpl; intros H.
    + rewrite orb_false_r in H. apply starts_with_inv in H as [t Ht].
      exists "", t. exact Ht.
    + apply orb_true_iff in H as [H|H].
      * apply starts_with_inv in H as [t Ht]. exists "", t. exact Ht.
      * destruct (IH H) as (pre & post & ->).
        exists (String c pre), post. reflexivity.
  - intros (pre & post & ->).
    induction pre as [|c pre IH]; simpl.
    + apply starts_with_contains, starts_with_app.
    + rewrite IH. apply orb_true_r.
Qed.






Lemma starts_with_space (kw : string) (c : ascii) (s : string) :
  head_not_space kw = true -> is_space c = true ->
  starts_with kw (String c s) = false.
Proof.
  destruct kw as [|a kw]; simpl; [discriminate|]. intros Ha Hc.
  destruct (Ascii.eqb a c) eqn:E; [|reflexivity].
  apply Ascii.eqb_eq in E; subst a. rewrite Hc in Ha. discriminate.
Qed.

Lemma contains_lstrip (kw s : string) :
  head_not_space kw = true -> contains kw (lstrip s) = contains kw s.
Proof.
  intros Hkw. induction s as [|c s IH]; [reflexivity|].
  cbn [lstrip]. destruct (is_space c) eqn:Hc; [|reflexivity].
  rewrite IH. cbn [contains]. now rewrite starts_with_space.
Qed.

Lemma is_empty_eq (s : string) : is_empty s = true -> s = "".
Proof. destruct s; [reflexivity | discriminate]. Qed.

Lemma last_not_space_tail (a : ascii) (kw : string) :
  last_not_space (String a kw) = true -> last_not_space kw = true.
Proof. destruct kw; [reflexivity | trivial]. Qed.

Lemma starts_with_rstrip (kw s : string) :
  last_not_space kw = true ->
  starts_with kw (rstrip s) = starts_with kw s.
Proof.
  revert kw. induction s as [|c s IH]; intros kw Hkw; [reflexivity|].
  destruct kw as [|a kw]; [reflexivity|].
  cbn [rstrip]. destruct (is_space c && is_empty (rstrip s)) eqn:E.
  - apply andb_true_iff in E as [Hc He]. apply is_empty_eq in He.
    cbn [starts_with]. destruct (Ascii.eqb a c) eqn:Hac; [|reflexivity].
    apply Ascii.eqb_eq in Hac; subst a. cbn [andb].
    rewrite <- (IH kw (last_not_space_tail _ _ Hkw)), He.
    destruct kw; [|reflexivity].
    simpl in Hkw. rewrite Hc in Hkw. discriminate.
  - cbn [starts_with]. now rewrite (IH kw (last_not_space_tail _ _ Hkw)).
Qed.

Lemma contains_rstrip (kw s : string) :
  head_not_space kw = true -> last_not_space kw = true ->
  contains kw (rstrip s) = contains kw s.
Proof.
  intros Hh Hl. induction s as [|c s IH]; [reflexivity|].
  cbn [rstrip]. destruct (is_space c && is_empty (rstrip s)) eqn:E.
  - apply andb_true_iff in E as [Hc He]. apply is_empty_eq in He.
    cbn [contains]. rewrite starts_with_space by assumption.
    rewrite <- IH, He. destruct kw; [discriminate | reflexivity].
  - cbn [contains]. rewrite IH.
    rewrite <- (starts_with_rstrip kw (String c s) Hl).
    cbn [rstrip]. now rewrite E.
Qed.

(** Stripping neither adds nor removes an occurrence of such a keyword. *)
Lemma contains_strip (kw s : string) :
  head_not_space kw = true -> last_not_space kw = true ->
  contains kw (strip s) = contains kw s.
Proof.
  intros Hh Hl. unfold strip.
  now rewrite contains_rstrip, contains_lstrip.
Qed.

End PyStrFacts.

(** ** The label mapping *)

Section LabelMapping.
Import PyStr PyStrFacts.




Lemma map_pass_through (label : string) :
  keyword_matched label = false -> map_to_main_category label = label.
Proof.
  unfold keyword_matched, map_to_main_category. intros H.
  apply orb_false_iff in H as [H H3]. apply orb_false_iff in H as [H1 H2].
  now rewrite H1, H2, H3.
Qed.

(** The three categories, and nothing else, come out of the keyword rules. *)
Lemma map_matched (label : string) :
  keyword_matched label = true ->
  map_to_main_category label = CONFIRMED_PLANET
  \/ map_to_main_category label = CANDIDATE_PLANET
  \/ map_to_main_category label = FALSE_POSITIVE.
Proof.
  unfold keyword_matched, map_to_main_category.
  destruct (contains "CONFIRMED" (label_upper label)); [now left|].
  destruct (any_keyword_in candidate_keywords (label_upper label));
    [now right; left|].
  destruct (any_keyword_in false_keywords (label_upper label));
    [now right; right | discriminate].
Qed.



(** C9.  The category decision function is idempotent; each of the three
    category strings is mapped to itself by the keyword rules, and a label
    that passed through passes through again. *)
Theorem map_to_main_category_idempotent :
  (forall s, map_to_main_category (map_to_main_category s)
             = map_to_main_category s)
  /\ map_to_main_category "Confirmed Planet" = "Confirmed Planet"
  /\ map_to_main_category "Candidate Planet" = "Candidate Planet"
  /\ map_to_main_category "False Positive (Not a Planet)"
     = "False Positive (Not a Planet)"
  /\ (forall s, keyword_matched s = false ->
        keyword_matched (map_to_main_category s) = false
        /\ map_to_main_category (map_to_main_category s) = s).
Proof.
  assert (Hc : map_to_main_category CONFIRMED_PLANET = CONFIRMED_PLANET)
    by reflexivity.
  assert (Hd : map_to_main_category CANDIDATE_PLANET = CANDIDATE_PLANET)
    by reflexivity.
  assert (Hf : map_to_main_category FALSE_POSITIVE = FALSE_POSITIVE)
    by reflexivity.
  repeat split; trivial.
  - intros s. destruct (keyword_matched s) eqn:E.
    + destruct (map_matched s E) as [-> | [-> | ->]]; assumption.
    + now rewrite !(map_pass_through s E).
  - now rewrite (map_pass_through s H).
  - now rewrite !(map_pass_through s H).
Qed.

End LabelMapping.

(** ** The monad: globals are read, never written *)

Section Preservation.

Lemma preserves_ret {A : Type} (a : A) : preserves_globals (ret a).
Proof. intros g. reflexivity. Qed.

Lemma preserves_raise {A : Type} (e : exn) : preserves_globals (@raise A e).
Proof. intros g. reflexivity. Qed.

Lemma preserves_lift {A : Type} (r : result A) : preserves_globals (lift r).
Proof. intros g. reflexivity. Qed.

Lemma preserves_global {A : Type} (name : globals -> A) :
  preserves_globals (global name).
Proof. intros g. reflexivity. Qed.

Lemma preserves_emit (e : event) : preserves_globals (emit e).
Proof. intros g. reflexivity. Qed.

Lemma preserves_bind {A B : Type} (c : M A) (k : A -> M B) :
  preserves_globals c -> (forall a, preserves_globals (k a)) ->
  preserves_globals (bind c k).
Proof.
  intros Hc Hk g. unfold bind. specialize (Hc g).
  destruct (c g) as [[[a|e] g'] t]; simpl in Hc; subst g'; [|reflexivity].
  specialize (Hk a g). destruct (k a g) as [[r g''] t']. exact Hk.
Qed.

Lemma preserves_try_except {A : Type} (c : M A) (handles : exn -> bool)
    (h : exn -> M A) :
  preserves_globals c -> (forall e, preserves_globals (h e)) ->
  preserves_globals (try_except c handles h).
Proof.
  intros Hc Hh g. unfold try_except. specialize (Hc g).
  destruct (c g) as [[[a|e] g'] t]; simpl in Hc; subst g'; [reflexivity|].
  destruct (handles e); [|reflexivity].
  specialize (Hh e g). destruct (h e g) as [[r g''] t']. exact Hh.
Qed.

End Preservation.

Create HintDb preserves.

#[export] Hint Resolve preserves_ret preserves_raise preserves_lift
  preserves_global preserves_emit : preserves.

(** Walks a computation built from the monad's operations, [match] and
    [if]. *)
Ltac preserves_step :=
  match goal with
  | |- preserves_globals (bind _ _) => apply preserves_bind; [|intros]
  | |- preserves_globals (try_except _ _ _) =>
      apply preserves_try_except; [|intros]
  | |- preserves_globals (match ?x with _ => _ end) => destruct x
  | |- preserves_globals (let _ := _ in _) => cbv zeta
  | |- preserves_globals _ => solve [auto with preserves]
  end.

Ltac preserves := repeat preserves_step.

Section HandlerPreservation.
  Variable float_of_str : string -> option pyfloat.

Lemma preserves_call_map (label : string) :
  preserves_globals (call_map_to_main_category label).
Proof. unfold call_map_to_main_category. preserves. Qed.

Lemma preserves_detailed (le : LabelEncoder) (items : list (Z * pyfloat))
    (acc : pydict) :
  preserves_globals (detailed_confidence_from le items acc).
Proof.
  revert acc. induction items as [|[i prob] rest IH]; intros acc; simpl.
  - preserves.
  - preserves; apply IH.
Qed.

Lemma preserves_group (items grouped : pydict) :
  preserves_globals (group_confidence items grouped).
Proof.
  revert grouped. induction items as [|[label prob] rest IH];
    intros grouped; simpl.
  - preserves.
  - apply preserves_bind; [apply preserves_call_map|]. intros c.
    destruct (Dict.get String.eqb c grouped); [apply IH | preserves].
Qed.

Lemma preserves_flat (items : list (Z * pyfloat)) (acc : pydict) :
  preserves_globals (flat_confidence_from items acc).
Proof.
  revert acc. induction items as [|[i prob] rest IH]; intros acc; simpl.
  - preserves.
  - apply preserves_bind; [preserves|]. intros labels.
    destruct (Dict.get Z.eqb i labels); [apply IH | preserves].
Qed.

Hint Resolve preserves_call_map preserves_detailed preserves_group
  preserves_flat : preserves.

Lemma preserves_confidence_try (mdl : Classifier) (features : array) :
  preserves_globals (confidence_try mdl features).
Proof. unfold confidence_try. preserves. Qed.

Hint Resolve preserves_confidence_try : preserves.

Lemma preserves_predict_features (mdl : Classifier) (input : input_echo) :
  preserves_globals (predict_features mdl input).
Proof. unfold predict_features. preserves. Qed.

Hint Resolve preserves_predict_features : preserves.





End HandlerPreservation.

(** ** Exact floats under addition *)

#[export] Instance same_value_Equivalence : Equivalence same_value.
Proof.
  split.
  - intros [| s | p]; simpl; [trivial | reflexivity | reflexivity].
  - intros [| s | p] [| t | q]; simpl; try tauto; intros H; now symmetry.
  - intros [| s | p] [| t | q] [| u | r]; simpl; try tauto; intros H1 H2;
      etransitivity; eassumption.
Qed.

#[export] Instance fadd_Proper :
  Proper (same_value ==> same_value ==> same_value) fadd.
Proof.
  intros [| s | p] [| s' | p'] Hx [| t | q] [| t' | q'] Hy;
    simpl in *; try tauto; subst; try reflexivity.
  now rewrite Hx, Hy.
Qed.

Lemma fadd_comm (x y : pyfloat) : same_value (fadd x y) (fadd y x).
Proof.
  destruct x as [| [|] | p], y as [| [|] | q]; simpl; trivial.
  apply Qplus_comm.
Qed.

Lemma fadd_assoc (x y z : pyfloat) :
  same_value (fadd (fadd x y) z) (fadd x (fadd y z)).
Proof.
  destruct x as [| [|] | p], y as [| [|] | q], z as [| [|] | r];
    simpl; trivial.
  symmetry. apply Qplus_assoc.
Qed.


(** Moving an addend from one bucket to the end of the sum. *)
Lemma fadd_shuffle_1 (a b c p : pyfloat) :
  same_value (fadd (fadd (fadd a p) b) c) (fadd (fadd (fadd a b) c) p).
Proof.
  rewrite (fadd_assoc a p b), (fadd_comm p b), <- (fadd_assoc a b p).
  rewrite (fadd_assoc (fadd a b) p c), (fadd_comm p c).
  now rewrite <- (fadd_assoc (fadd a b) c p).
Qed.

Lemma fadd_shuffle_2 (a b c p : pyfloat) :
  same_value (fadd (fadd a (fadd b p)) c) (fadd (fadd (fadd a b) c) p).
Proof.
  rewrite <- (fadd_assoc a b p).
  rewrite (fadd_assoc (fadd a b) p c), (fadd_comm p c).
  now rewrite <- (fadd_assoc (fadd a b) c p).
Qed.

Lemma fold_fadd_same_value (xs : list pyfloat) (x y : pyfloat) :
  same_value x y -> same_value (fold_left fadd xs x) (fold_left fadd xs y).
Proof.
  revert x y. induction xs as [|p xs IH]; intros x y H; simpl; [exact H|].
  apply IH. now rewrite H.
Qed.


(** ** Running the monad *)

Lemma bind_global {A B : Type} (name : globals -> A) (k : A -> M B)
    (g : globals) :
  bind (global name) k g = k (name g) g.
Proof. unfold bind, global. now destruct (k (name g) g) as [[r g'] t]. Qed.

Lemma bind_emit {B : Type} (e : event) (k : unit -> M B) (g : globals) :
  bind (emit e) k g
  = (fst (fst (k tt g)), snd (fst (k tt g)), e :: snd (k tt g)).
Proof. unfold bind, emit. now destruct (k tt g) as [[r g'] t]. Qed.

(** ** Aggregation of a confidence distribution *)

Section Aggregation.

Lemma group_confidence_cons (label : string) (prob : pyfloat)
    (rest grouped : pydict) (g : globals) :
  group_confidence ((label, prob) :: rest) grouped g =
  match Dict.get String.eqb (map_to_main_category label) grouped with
  | None =>
      (Raise (KeyError (KStr (map_to_main_category label))), g,
       [MapToMainCategory label])
  | Some old =>
      let run :=
        group_confidence rest
          (Dict.set String.eqb (map_to_main_category label) (fadd old prob)
             grouped) g
      in
      (fst (fst run), snd (fst run), MapToMainCategory label :: snd run)
  end.
Proof.
  cbn [group_confidence]. unfold call_map_to_main_category.
  unfold bind at 1 2. unfold emit, ret. cbn [app].
  destruct (Dict.get String.eqb (map_to_main_category label) grouped);
    [|reflexivity].
  cbv zeta.
  now destruct (group_confidence rest _ g) as [[r g'] t].
Qed.

(** A label that no keyword rule classifies is no key of the grouped
    dictionary. *)
Lemma pass_through_not_a_bucket (label : string) (a b c : pyfloat) :
  keyword_matched label = false ->
  Dict.get String.eqb label (grouped_of a b c) = None.
Proof.
  intros H. unfold grouped_of. cbn [Dict.get].
  destruct (String.eqb CONFIRMED_PLANET label) eqn:E1;
    [apply String.eqb_eq in E1; subst label; discriminate H|].
  destruct (String.eqb CANDIDATE_PLANET label) eqn:E2;
    [apply String.eqb_eq in E2; subst label; discriminate H|].
  destruct (String.eqb FALSE_POSITIVE label) eqn:E3;
    [apply String.eqb_eq in E3; subst label; discriminate H|].
  reflexivity.
Qed.

Lemma group_confidence_step (label : string) (prob : pyfloat)
    (rest : pydict) (a b c : pyfloat) (g : globals) :
  keyword_matched label = true ->
  group_confidence ((label, prob) :: rest) (grouped_of a b c) g =
  (fst (fst (group_confidence rest
               (step_bucket (map_to_main_category label) prob a b c) g)),
   snd (fst (group_confidence rest
               (step_bucket (map_to_main_category label) prob a b c) g)),
   MapToMainCategory label ::
   snd (group_confidence rest
          (step_bucket (map_to_main_category label) prob a b c) g)).
Proof.
  intros H. rewrite group_confidence_cons.
  destruct (map_matched label H) as [-> | [-> | ->]]; reflexivity.
Qed.

(** Mass preservation: when every label is classified, the three buckets
    grow by exactly the probabilities folded in. *)
Lemma group_confidence_matched (items : pydict) (a b c : pyfloat)
    (g : globals) :
  forallb keyword_matched (map fst items) = true ->
  exists a' b' c',
    group_confidence items (grouped_of a b c) g
    = (Ret (grouped_of a' b' c'), g, mapping_events items)
    /\ same_value (fadd (fadd a' b') c')
         (fold_left fadd (map snd items) (fadd (fadd a b) c)).
Proof.
  revert a b c.
  induction items as [|[label prob] rest IH]; intros a b c Hall.
  - exists a, b, c. split; reflexivity.
  - cbn [map fst forallb] in Hall. apply andb_true_iff in Hall as [Hl Hrest].
    rewrite (group_confidence_step label prob rest a b c g Hl).
    cbn [map snd fold_left mapping_events fst].
    destruct (map_matched label Hl) as [-> | [-> | ->]].
    + change (step_bucket CONFIRMED_PLANET prob a b c)
        with (grouped_of (fadd a prob) b c).
      destruct (IH (fadd a prob) b c Hrest) as (a' & b' & c' & Hrun & Hsum).
      exists a', b', c'. rewrite Hrun. split; [reflexivity|].
      rewrite Hsum. apply fold_fadd_same_value, fadd_shuffle_1.
    + change (step_bucket CANDIDATE_PLANET prob a b c)
        with (grouped_of a (fadd b prob) c).
      destruct (IH a (fadd b prob) c Hrest) as (a' & b' & c' & Hrun & Hsum).
      exists a', b', c'. rewrite Hrun. split; [reflexivity|].
      rewrite Hsum. apply fold_fadd_same_value, fadd_shuffle_2.
    + change (step_bucket FALSE_POSITIVE prob a b c)
        with (grouped_of a b (fadd c prob)).
      destruct (IH a b (fadd c prob) Hrest) as (a' & b' & c' & Hrun & Hsum).
      exists a', b', c'. rewrite Hrun. split; [reflexivity|].
      rewrite Hsum. apply fold_fadd_same_value.
      symmetry. apply fadd_assoc.
Qed.

(** The first label that no keyword rule classifies stops the aggregation
    with [KeyError]. *)
Lemma group_confidence_pass_through (before : pydict) (label : string)
    (prob : pyfloat) (after : pydict) (a b c : pyfloat) (g : globals) :
  forallb keyword_matched (map fst before) = true ->
  keyword_matched label = false ->
  group_confidence (before ++ (label, prob) :: after)%list
    (grouped_of a b c) g
  = (Raise (KeyError (KStr label)), g,
     mapping_events (before ++ [(label, prob)])%list).
Proof.
  intros Hall Hl. revert a b c Hall.
  induction before as [|[l p] rest IH]; intros a b c Hall.
  - cbn [app]. rewrite group_confidence_cons.
    rewrite (map_pass_through label Hl).
    now rewrite pass_through_not_a_bucket.
  - cbn [map fst forallb] in Hall. apply andb_true_iff in Hall as [Hm Hrest].
    cbn [app]. rewrite (group_confidence_step l p _ a b c g Hm).
    cbn [mapping_events map fst].
    destruct (map_matched l Hm) as [-> | [-> | ->]].
    + change (step_bucket CONFIRMED_PLANET p a b c)
        with (grouped_of (fadd a p) b c).
      now rewrite (IH _ _ _ Hrest).
    + change (step_bucket CANDIDATE_PLANET p a b c)
        with (grouped_of a (fadd b p) c).
      now rewrite (IH _ _ _ Hrest).
    + change (step_bucket FALSE_POSITIVE p a b c)
        with (grouped_of a b (fadd c p)).
      now rewrite (IH _ _ _ Hrest).
Qed.



End Aggregation.

(** ** The /predict pipeline *)

Section Pipeline.
  Variable float_of_str : string -> option pyfloat.

Lemma model_startup (p : pickles) :
  model (startup p) = exoplanet_classifier_rf p.
Proof. unfold startup. now destruct (exoplanet_label_encoder p). Qed.

Lemma label_encoder_startup (p : pickles) :
  label_encoder (startup p) = exoplanet_label_encoder p.
Proof.
  unfold startup. now destruct (exoplanet_label_encoder p) eqn:E.
Qed.

Lemma class_labels_startup (p : pickles) :
  exoplanet_label_encoder p = None ->
  CLASS_LABELS (startup p) = default_class_labels.
Proof. unfold startup. now intros ->. Qed.


(** The handler at the HTTP level, from a run of the view. *)
Lemma handle_predict (data : pyval) (g g' : globals) (resp : response)
    (t : list event) :
  predict float_of_str data g = (Ret resp, g', t) ->
  handle float_of_str (POST_predict data) g = (resp, g', t).
Proof. unfold handle, dispatch. now intros ->. Qed.

Ltac unfold_predict :=
  unfold predict, try_except, predict_try, predict_except, bind, global,
    lift, ret, first_missing, required_fields, py_in, py_getitem, Dict.mem.

(** *** Validation *)

Lemma predict_no_model (data : pyval) (g : globals) :
  model g = None ->
  predict float_of_str data g
  = (Ret (Error (Text "Model not loaded. Please ensure model.pkl exists."),
          500%Z), g, []).
Proof. intros H. unfold_predict. now rewrite H. Qed.

(** An empty or absent body is refused first. *)
Lemma predict_no_data (data : pyval) (g : globals) (mdl : Classifier) :
  model g = Some mdl -> truthy data = false ->
  predict float_of_str data g
  = (Ret (Error (Text "No data provided"), 400%Z), g, []).
Proof. intros H T. unfold_predict. now rewrite H, T. Qed.

(** On an object, the first absent required field is named. *)
Lemma predict_missing_field (items : list (string * pyval)) (g : globals)
    (mdl : Classifier) (field : string) :
  model g = Some mdl -> items <> [] ->
  find (fun f => negb (Dict.mem String.eqb f items)) required_fields
  = Some field ->
  predict float_of_str (PyDict items) g
  = (Ret (Error (Text ("Missing required field: " ++ field)), 400%Z), g, []).
Proof.
  intros H Hne Hfind. unfold_predict. rewrite H.
  assert (T : truthy (PyDict items) = true) by (now destruct items).
  rewrite T. cbn [negb].
  unfold required_fields, Dict.mem in Hfind. cbn [find] in Hfind.
  destruct (Dict.get String.eqb "orbital_period" items);
    [|injection Hfind as <-; reflexivity].
  destruct (Dict.get String.eqb "transit_duration" items);
    [|injection Hfind as <-; reflexivity].
  destruct (Dict.get String.eqb "planetary_radius" items);
    [discriminate | injection Hfind as <-; reflexivity].
Qed.

(** With the three fields present, the handler coerces them all, then
    checks the ranges, then runs inference. *)
Lemma predict_fields_present (items : list (string * pyval)) (g : globals)
    (mdl : Classifier) (v1 v2 v3 : pyval) :
  model g = Some mdl ->
  Dict.get String.eqb "orbital_period" items = Some v1 ->
  Dict.get String.eqb "transit_duration" items = Some v2 ->
  Dict.get String.eqb "planetary_radius" items = Some v3 ->
  predict float_of_str (PyDict items) g =
  match coerce_fields float_of_str v1 v2 v3 with
  | Raise e =>
      (Ret (if is_ValueError e then (Error (InvalidInputValue e), 400%Z)
            else (Error (PredictionError e), 500%Z)), g, [])
  | Ret input =>
      match range_failure input with
      | Some text => (Ret (Error (Text text), 400%Z), g, [])
      | None =>
          try_except (predict_features mdl input) (fun _ => true)
            predict_except g
      end
  end.
Proof.
  intros H G1 G2 G3. unfold_predict. rewrite H.
  assert (T : truthy (PyDict items) = true).
  { destruct items; [discriminate G1 | reflexivity]. }
  rewrite T. cbn [negb]. rewrite G1, G2, G3.
  unfold coerce_fields, range_failure.
  destruct (py_float float_of_str v1) as [x1|e]; [|now destruct e].
  destruct (py_float float_of_str v2) as [x2|e]; [|now destruct e].
  destruct (py_float float_of_str v3) as [x3|e]; [|now destruct e].
  cbn [orbital_period transit_duration planetary_radius].
  destruct (fle0 x1); [reflexivity|].
  destruct (fle0 x2); [reflexivity|].
  destruct (fle0 x3); [reflexivity|].
  destruct (predict_features mdl _ g) as [[[resp|e] g'] t]; [reflexivity|].
  now destruct (is_ValueError e).
Qed.


End Pipeline.

(** ** Inference, decoding and the response *)

Section Inference.
  Variable float_of_str : string -> option pyfloat.

Lemma detailed_confidence_from_run (le : LabelEncoder)
    (items : list (Z * pyfloat)) (acc : pydict) (g : globals) :
  detailed_confidence_from le items acc g
  = (Ret (detailed_of le items acc), g,
     map (fun item => InverseTransform (fst item)) items).
Proof.
  revert acc. induction items as [|[i prob] rest IH]; intros acc.
  - reflexivity.
  - cbn [detailed_confidence_from]. rewrite bind_emit, IH. reflexivity.
Qed.

Lemma flat_confidence_from_run (items : list (Z * pyfloat)) (acc : pydict)
    (g : globals) :
  (exists d, flat_confidence_from items acc g = (Ret d, g, []))
  \/ (exists i, flat_confidence_from items acc g
                = (Raise (KeyError (KInt i)), g, [])).
Proof.
  revert acc. induction items as [|[i prob] rest IH]; intros acc.
  - left. now exists acc.
  - cbn [flat_confidence_from]. rewrite bind_global.
    destruct (Dict.get Z.eqb i (CLASS_LABELS g)) as [label|].
    + apply IH.
    + right. now exists i.
Qed.

(** Without [predict_proba] the confidence step is skipped and the
    response carries the prediction and the input only. *)
Lemma predict_features_no_proba (g : globals) (mdl : Classifier)
    (input : input_echo) :
  model_predict_proba mdl = None ->
  exists t,
    predict_features mdl input g
    = (Ret (Prediction (prediction_label_of g mdl input) input None, 200%Z),
       g, t)
    /\ existsb is_probability_call t = false
    /\ (label_encoder g = None -> forallb is_inference t = true).
Proof.
  intros Hproba.
  unfold predict_features, prediction_label_of, model_input, confidence_try,
    call_map_to_main_category, try_except, bind, global, emit, ret, raise.
  rewrite Hproba.
  destruct (scaler g) as [sc|]; destruct (label_encoder g) as [le|];
    cbn; eexists; repeat split; try reflexivity; discriminate.
Qed.

(** Without a label encoder the handler calls the scaler and the
    classifier only, and answers with the label of the static table or
    with the [KeyError] of the flat confidence dictionary. *)
Lemma predict_features_no_encoder (g : globals) (mdl : Classifier)
    (input : input_echo) :
  label_encoder g = None ->
  exists r t,
    predict_features mdl input g = (r, g, t)
    /\ forallb is_inference t = true
    /\ ((exists c,
           r = Ret (Prediction (prediction_label_of g mdl input) input c,
                    200%Z))
        \/ (exists i, r = Raise (KeyError (KInt i))
                      /\ model_predict_proba mdl <> None)).
Proof.
  intros Hle.
  destruct (model_predict_proba mdl) as [proba|] eqn:Hproba.
  - unfold predict_features, prediction_label_of, model_input,
      confidence_try, try_except, bind, global, emit, ret.
    destruct (scaler g) as [sc|];
      cbn -[enumerate flat_confidence_from Dict.get];
      rewrite Hle, Hproba;
      cbn -[enumerate flat_confidence_from Dict.get];
      rewrite Hle;
      match goal with
      | |- context [flat_confidence_from ?items [] g] =>
          destruct (flat_confidence_from_run items [] g)
            as [[d Hd] | [i Hi]]
      end.
    + rewrite Hd. cbn -[Dict.get]. do 2 eexists. repeat split.
      left. eexists. reflexivity.
    + rewrite Hi. cbn -[Dict.get]. do 2 eexists. repeat split.
      right. exists i. now split.
    + rewrite Hd. cbn -[Dict.get]. do 2 eexists. repeat split.
      left. eexists. reflexivity.
    + rewrite Hi. cbn -[Dict.get]. do 2 eexists. repeat split.
      right. exists i. now split.
  - destruct (predict_features_no_proba g mdl input Hproba)
      as (t & Hrun & _ & Hinf).
    exists (Ret (Prediction (prediction_label_of g mdl input) input None,
                 200%Z)), t.
    repeat split; auto. left. now exists None.
Qed.

End Inference.

(** ** Every request is answered *)

Section Outcome.
  Variable float_of_str : string -> option pyfloat.

Lemma group_confidence_outcome (items grouped : pydict) (g : globals) :
  exists r t,
    group_confidence items grouped g = (r, g, t)
    /\ ((exists d, r = Ret d) \/ (exists key, r = Raise (KeyError key))).
Proof.
  revert grouped. induction items as [|[label prob] rest IH]; intros grouped.
  - do 2 eexists. split; [reflexivity|]. left. now eexists.
  - rewrite group_confidence_cons.
    destruct (Dict.get String.eqb (map_to_main_category label) grouped)
      as [old|].
    + destruct (IH (Dict.set String.eqb (map_to_main_category label)
                      (fadd old prob) grouped)) as (r & t & -> & H).
      cbn. do 2 eexists. split; [reflexivity|]. exact H.
    + do 2 eexists. split; [reflexivity|]. right. now eexists.
Qed.

Lemma predict_features_outcome (g : globals) (mdl : Classifier)
    (input : input_echo) :
  exists r t,
    predict_features mdl input g = (r, g, t) /\ answered_or_KeyError r.
Proof.
  unfold answered_or_KeyError.
  destruct (label_encoder g) as [le|] eqn:Hle.
  - destruct (model_predict_proba mdl) as [proba|] eqn:Hproba.
    + unfold predict_features, confidence_try, try_except,
        call_map_to_main_category, bind, global, emit, ret.
      destruct (scaler g) as [sc|];
        cbn -[enumerate detailed_confidence_from group_confidence];
        rewrite Hle, Hproba;
        cbn -[enumerate detailed_confidence_from group_confidence];
        rewrite Hle;
        rewrite detailed_confidence_from_run;
        match goal with
        | |- context [group_confidence ?items ?grouped g] =>
            destruct (group_confidence_outcome items grouped g)
              as (r & t & Hrun & [[d ->] | [key ->]]); rewrite Hrun
        end; cbn; do 2 eexists; (split; [reflexivity|]);
        solve [left; do 3 eexists; reflexivity
              | right; eexists; reflexivity].
    + destruct (predict_features_no_proba g mdl input Hproba)
        as (t & Hrun & _).
      do 2 eexists. split; [exact Hrun|]. left. now do 3 eexists.
  - destruct (predict_features_no_encoder g mdl input Hle)
      as (r & t & Hrun & _ & [[c ->] | (i & -> & _)]);
      do 2 eexists; (split; [exact Hrun|]).
    + left. now do 3 eexists.
    + right. now eexists.
Qed.

(** Every request to /predict is answered by the view itself, with status
    200, 400 or 500, and a 400 is decided before any call on an artifact
    and before any decoding. *)
Lemma client_errors_precede_inference (data : pyval) (g : globals) :
  exists b status t,
    predict float_of_str data g = (Ret (b, status), g, t)
    /\ (status = 200 \/ status = 400 \/ status = 500)%Z
    /\ (status = 400%Z -> t = []).
Proof.
  destruct (model g) as [mdl|] eqn:Hm.
  2:{ rewrite (predict_no_model float_of_str data g Hm).
      do 3 eexists. split; [reflexivity|]. split; [auto|discriminate]. }
  destruct (truthy data) eqn:T.
  2:{ rewrite (predict_no_data float_of_str data g mdl Hm T).
      do 3 eexists. split; [reflexivity|]. split; [auto|reflexivity]. }
  unfold predict, try_except, predict_try, predict_except.
  rewrite bind_global, Hm, T. cbn [negb].
  unfold bind at 1. unfold lift at 1.
  destruct (first_missing data required_fields) as [[field|]|e].
  - cbn. do 3 eexists. split; [reflexivity|]. split; [auto|reflexivity].
  - unfold bind, lift, ret.
    destruct (py_getitem data "orbital_period") as [v1|e].
    2:{ destruct e; cbn; do 3 eexists;
        (split; [reflexivity|]); (split; [auto|auto; try discriminate]). }
    destruct (py_float float_of_str v1) as [x1|e].
    2:{ destruct e; cbn; do 3 eexists;
        (split; [reflexivity|]); (split; [auto|auto; try discriminate]). }
    destruct (py_getitem data "transit_duration") as [v2|e].
    2:{ destruct e; cbn; do 3 eexists;
        (split; [reflexivity|]); (split; [auto|auto; try discriminate]). }
    destruct (py_float float_of_str v2) as [x2|e].
    2:{ destruct e; cbn; do 3 eexists;
        (split; [reflexivity|]); (split; [auto|auto; try discriminate]). }
    destruct (py_getitem data "planetary_radius") as [v3|e].
    2:{ destruct e; cbn; do 3 eexists;
        (split; [reflexivity|]); (split; [auto|auto; try discriminate]). }
    destruct (py_float float_of_str v3) as [x3|e].
    2:{ destruct e; cbn; do 3 eexists;
        (split; [reflexivity|]); (split; [auto|auto; try discriminate]). }
    destruct (fle0 x1).
    { cbn. do 3 eexists. split; [reflexivity|]. split; [auto|reflexivity]. }
    destruct (fle0 x2).
    { cbn. do 3 eexists. split; [reflexivity|]. split; [auto|reflexivity]. }
    destruct (fle0 x3).
    { cbn. do 3 eexists. split; [reflexivity|]. split; [auto|reflexivity]. }
    destruct (predict_features_outcome g mdl (Build_input_echo x1 x2 x3))
      as (r & t & Hrun & [(label & input & c & ->) | (key & ->)]);
      rewrite Hrun; cbn; do 3 eexists;
      (split; [reflexivity|]); (split; [auto|discriminate]).
  - destruct e; cbn; do 3 eexists;
      (split; [reflexivity|]); (split; [auto|auto; try discriminate]).
Qed.
End Outcome.

(** ** The claims on the /predict route *)

Section Route.
  Variable float_of_str : string -> option pyfloat.



Lemma static_lookup (i : Z) :
  match Dict.get Z.eqb i default_class_labels with
  | Some label => label
  | None => "Unknown"
  end = static_category i.
Proof.
  unfold default_class_labels, static_category. cbn [Dict.get].
  rewrite (Z.eqb_sym 0 i), (Z.eqb_sym 1 i), (Z.eqb_sym 2 i).
  destruct (i =? 0)%Z; [reflexivity|].
  destruct (i =? 1)%Z; [reflexivity|].
  now destruct (i =? 2)%Z.
Qed.



(** C4.  When no classifier was loaded at startup, every request to
    /predict, whatever its body, is answered with HTTP 500 and an error
    text that mentions the model; nothing else is processed: no validation
    answer, and no call on any artifact. *)
Theorem predict_model_unavailable (p : pickles) (data : pyval) :
  exoplanet_classifier_rf p = None ->
  handle float_of_str (POST_predict data) (startup p)
  = ((Error (Text "Model not loaded. Please ensure model.pkl exists."),
      500%Z), startup p, [])
  /\ PyStr.contains "model"
       "Model not loaded. Please ensure model.pkl exists." = true.
Proof.
  intros H. split; [|reflexivity].
  apply handle_predict, predict_no_model. now rewrite model_startup.
Qed.





End Route.

(** ** Pass-through labels and uncoercible fields *)

Section Defects.
  Variable float_of_str : string -> option pyfloat.


(** A field that is a string and no float literal is a client error: the
    [ValueError] of [float] is answered with HTTP 400. *)
Lemma unparsable_string_is_client_error (g : globals) (mdl : Classifier)
    (items : list (string * pyval)) (s : string) (v2 v3 : pyval) :
  model g = Some mdl ->
  Dict.get String.eqb "orbital_period" items = Some (PyStr s) ->
  Dict.get String.eqb "transit_duration" items = Some v2 ->
  Dict.get String.eqb "planetary_radius" items = Some v3 ->
  float_of_str s = None ->
  handle float_of_str (POST_predict (PyDict items)) g
  = ((Error (InvalidInputValue (ValueError s)), 400%Z), g, []).
Proof.
  intros Hm G1 G2 G3 Hs. apply handle_predict.
  rewrite (predict_fields_present float_of_str items g mdl _ _ _ Hm G1 G2 G3).
  unfold coerce_fields. cbn [py_float]. now rewrite Hs.
Qed.

(** A coerced value that is not positive is a client error whose text
    says so; no artifact is called. *)
Lemma nonpositive_is_client_error (g : globals) (mdl : Classifier)
    (items : list (string * pyval)) (v1 v2 v3 : pyval) (input : input_echo)
    (text : string) :
  model g = Some mdl ->
  Dict.get String.eqb "orbital_period" items = Some v1 ->
  Dict.get String.eqb "transit_duration" items = Some v2 ->
  Dict.get String.eqb "planetary_radius" items = Some v3 ->
  coerce_fields float_of_str v1 v2 v3 = Ret input ->
  range_failure input = Some text ->
  handle float_of_str (POST_predict (PyDict items)) g
  = ((Error (Text text), 400%Z), g, [])
  /\ PyStr.contains "positive" text = true.
Proof.
  intros Hm G1 G2 G3 Hc Hr. split.
  - apply handle_predict.
    rewrite (predict_fields_present float_of_str items g mdl _ _ _
               Hm G1 G2 G3).
    now rewrite Hc, Hr.
  - unfold range_failure in Hr.
    destruct (fle0 (orbital_period input));
      [injection Hr as <-; reflexivity|].
    destruct (fle0 (transit_duration input));
      [injection Hr as <-; reflexivity|].
    destruct (fle0 (planetary_radius input));
      [injection Hr as <-; reflexivity | discriminate].
Qed.

(** An integer field beyond the range of a float is answered with
    HTTP 500: [OverflowError] is no [ValueError]. *)
Lemma huge_integer_is_server_error (g : globals) (mdl : Classifier)
    (items : list (string * pyval)) (z : Z) (v2 v3 : pyval) :
  model g = Some mdl ->
  Dict.get String.eqb "orbital_period" items = Some (PyInt z) ->
  Dict.get String.eqb "transit_duration" items = Some v2 ->
  Dict.get String.eqb "planetary_radius" items = Some v3 ->
  (float_overflow_threshold <= Z.abs z)%Z ->
  handle float_of_str (POST_predict (PyDict items)) g
  = ((Error (PredictionError OverflowError), 500%Z), g, []).
Proof.
  intros Hm G1 G2 G3 Hz. apply handle_predict.
  rewrite (predict_fields_present float_of_str items g mdl _ _ _ Hm G1 G2 G3).
  unfold coerce_fields. cbn [py_float].
  destruct (Z.ltb_spec (Z.abs z) float_overflow_threshold); [lia|].
  reflexivity.
Qed.

(** C5.  A present field that cannot be coerced is not always refused with
    HTTP 400: on [{"orbital_period": null, "transit_duration": 2,
    "planetary_radius": 1}] the [TypeError] of [float(None)] reaches the
    generic clause and the answer is HTTP 500, whatever was loaded next to
    the classifier. *)
Theorem null_field_is_server_error (mdl : Classifier) (sc : option Scaler)
    (le : option LabelEncoder) :
  handle float_of_str (POST_predict Sample.null_field_body)
    (startup (Build_pickles (Some mdl) sc le))
  = ((Error (PredictionError TypeError), 500%Z),
     startup (Build_pickles (Some mdl) sc le), []).
Proof.
  apply handle_predict. unfold Sample.null_field_body.
  rewrite (predict_fields_present float_of_str _ _ mdl
             PyNone (PyInt 2) (PyInt 1));
    try reflexivity.
  apply model_startup.
Qed.

End Defects.

(** C1.  The disposition "FP" matches none of the three keyword groups.
    With an encoder holding it, the request
    [{"orbital_period": 10.5, "transit_duration": "2.1",
      "planetary_radius": 1}] does not complete with a grouped distribution
    that leaves the mass of "FP" out: the aggregation raises [KeyError] on
    "FP" and the answer is HTTP 500. *)
Theorem pass_through_label_is_server_error :
  keyword_matched "FP" = false
  /\ handle Sample.float_of_str (POST_predict Sample.good_body)
       (startup Sample.fp_pickles)
     = ((Error (PredictionError (KeyError (KStr "FP"))), 500%Z),
        startup Sample.fp_pickles,
        [Predict [FFin (105 # 10); FFin (21 # 10); FFin (inject_Z 1)];
         InverseTransform 1; MapToMainCategory "FP"; Print "FP" "FP";
         PredictProba [FFin (105 # 10); FFin (21 # 10); FFin (inject_Z 1)];
         InverseTransform 0; InverseTransform 1;
         MapToMainCategory "CONFIRMED"; MapToMainCategory "FP"]).
Proof. split; vm_compute; reflexivity. Qed.

(** ** Instances on the sample artifacts *)


Lemma predict_model_unavailable_sample :
  handle Sample.float_of_str (POST_predict (PyDict [])) (startup Sample.no_pickles)
  = ((Error (Text "Model not loaded. Please ensure model.pkl exists."),
      500%Z), startup Sample.no_pickles, [])
  /\ PyStr.contains "model"
       "Model not loaded. Please ensure model.pkl exists." = true.
Proof.
  apply (predict_model_unavailable Sample.float_of_str Sample.no_pickles
           (PyDict [])).
  reflexivity.
Defined.




(** * Further properties of the module *)

(** ** The label mapping: case, padding and range *)

Section LabelMappingMore.
Import PyStr PyStrFacts.

Lemma contains_padding_left (kw pre s : string) :
  head_not_space kw = true -> all_space pre = true ->
  contains kw (pre ++ s) = contains kw s.
Proof.
  intros Hh. induction pre as [|c pre IH]; intros Hpre; [reflexivity|].
  cbn [all_space] in Hpre. apply andb_true_iff in Hpre as [Hc Hpre].
  cbn [append contains]. rewrite starts_with_space by assumption.
  now apply IH.
Qed.

Lemma starts_with_padding_right (kw s post : string) :
  last_not_space kw = true -> all_space post = true ->
  starts_with kw (s ++ post) = starts_with kw s.
Proof.
  revert s post. induction kw as [|a kw IH]; intros s post Hl Hpost;
    [reflexivity|].
  destruct s as [|c s].
  - cbn [append]. destruct post as [|c post]; [reflexivity|].
    cbn [all_space] in Hpost. apply andb_true_iff in Hpost as [Hc Hpost].
    cbn [starts_with]. destruct (Ascii.eqb a c) eqn:E; [|reflexivity].
    apply Ascii.eqb_eq in E; subst a. cbn [andb].
    destruct kw as [|b kw].
    + simpl in Hl. rewrite Hc in Hl. discriminate.
    + exact (IH "" post (last_not_space_tail _ _ Hl) Hpost).
  - cbn [append starts_with].
    now rewrite (IH s post (last_not_space_tail _ _ Hl) Hpost).
Qed.

Lemma contains_padding_right (kw s post : string) :
  head_not_space kw = true -> last_not_space kw = true ->
  all_space post = true ->
  contains kw (s ++ post) = contains kw s.
Proof.
  intros Hh Hl Hpost. induction s as [|c s IH].
  - cbn [append]. rewrite <- (contains_padding_left kw post "" Hh Hpost).
    f_equal. induction post as [|c post IHp]; [reflexivity|].
    cbn [append]. f_equal. apply IHp.
    cbn [all_space] in Hpost. now apply andb_true_iff in Hpost as [_ H].
  - change (String c s ++ post) with (String c (s ++ post)).
    cbn [contains]. rewrite IH.
    change (String c (s ++ post)) with (String c s ++ post).
    now rewrite starts_with_padding_right.
Qed.

(** What the keyword tests see of a label: case and surrounding white
    space do not count. *)
Lemma contains_label_upper (kw label : string) :
  head_not_space kw = true -> last_not_space kw = true ->
  contains kw (label_upper label) = contains kw (upper label).
Proof. intros Hh Hl. unfold label_upper. now apply contains_strip. Qed.

Lemma keyword_tests_padding (label label' pre post : string) :
  all_space pre = true -> all_space post = true ->
  upper label' = pre ++ upper label ++ post ->
  contains "CONFIRMED" (label_upper label')
  = contains "CONFIRMED" (label_upper label)
  /\ any_keyword_in candidate_keywords (label_upper label')
     = any_keyword_in candidate_keywords (label_upper label)
  /\ any_keyword_in false_keywords (label_upper label')
     = any_keyword_in false_keywords (label_upper label).
Proof.
  intros Hpre Hpost Hup.
  assert (H : forall kw, head_not_space kw = true ->
                last_not_space kw = true ->
                contains kw (label_upper label')
                = contains kw (label_upper label)).
  { intros kw Hh Hl. rewrite !contains_label_upper by assumption.
    rewrite Hup, contains_padding_left by assumption.
    now apply contains_padding_right. }
  unfold any_keyword_in, candidate_keywords, false_keywords.
  cbn [existsb].
  repeat split; now rewrite ?H by reflexivity.
Qed.

(** X1.  The category of a label does not depend on its case or on white
    space around it: a label whose upper-case form is that of [label]
    between white space is classified by a keyword rule exactly when
    [label] is, and then gets the same category; when no rule applies it
    comes back as it was given, padding and case included. *)
Theorem category_ignores_case_and_padding
    (label label' pre post : string) :
  all_space pre = true -> all_space post = true ->
  upper label' = pre ++ upper label ++ post ->
  keyword_matched label' = keyword_matched label
  /\ (keyword_matched label = true ->
      map_to_main_category label' = map_to_main_category label)
  /\ (keyword_matched label = false ->
      map_to_main_category label' = label').
Proof.
  intros Hpre Hpost Hup.
  destruct (keyword_tests_padding label label' pre post Hpre Hpost Hup)
    as (H1 & H2 & H3).
  assert (Hm : keyword_matched label' = keyword_matched label).
  { unfold keyword_matched. now rewrite H1, H2, H3. }
  repeat split; trivial.
  - intros Hl. unfold keyword_matched in Hl.
    unfold map_to_main_category. rewrite H1, H2, H3.
    destruct (contains "CONFIRMED" (label_upper label)); [reflexivity|].
    destruct (any_keyword_in candidate_keywords (label_upper label));
      [reflexivity|].
    destruct (any_keyword_in false_keywords (label_upper label));
      [reflexivity | discriminate Hl].
  - intros Hl. apply map_pass_through. now rewrite Hm.
Qed.

Lemma category_ignores_case_and_padding_sample :
  keyword_matched "  false Positive " = keyword_matched "FALSE POSITIVE"
  /\ (keyword_matched "FALSE POSITIVE" = true ->
      map_to_main_category "  false Positive "
      = map_to_main_category "FALSE POSITIVE")
  /\ (keyword_matched "FALSE POSITIVE" = false ->
      map_to_main_category "  false Positive " = "  false Positive ").
Proof.
  apply (category_ignores_case_and_padding
           "FALSE POSITIVE" "  false Positive " "  " " ");
    reflexivity.
Defined.

(** X2.  The result of the label mapping is one of the three categories
    exactly when a keyword rule applies to the label; when none applies
    the result is the label itself. *)
Theorem category_exactly_when_keyword (label : string) :
  (keyword_matched label = true
   <-> In (map_to_main_category label) main_categories)
  /\ (keyword_matched label = false -> map_to_main_category label = label).
Proof.
  split; [|apply map_pass_through].
  split.
  - intros H. unfold main_categories. cbn [In].
    destruct (map_matched label H) as [-> | [-> | ->]]; auto.
  - intros Hin. destruct (keyword_matched label) eqn:E; [reflexivity|].
    rewrite (map_pass_through label E) in Hin.
    unfold main_categories in Hin. cbn [In] in Hin.
    destruct Hin as [<- | [<- | [<- | []]]]; discriminate E.
Qed.

(** X3.  Among the false-positive keywords "FALSE" is covered by "FA":
    the test of line 53 gives the same answer without it. *)
Theorem false_keyword_is_covered (s : string) :
  any_keyword_in false_keywords s
  = any_keyword_in ["FA"; "REFUTED"; "NOT"] s.
Proof.
  unfold any_keyword_in, false_keywords. cbn [existsb].
  destruct (contains "FALSE" s) eqn:E; [|reflexivity].
  apply contains_Substring in E as (pre & post & ->).
  assert (H : contains "FA" (pre ++ "FALSE" ++ post) = true).
  { apply contains_Substring. exists pre, ("LSE" ++ post). reflexivity. }
  now rewrite H.
Qed.

End LabelMappingMore.

(** ** The aggregation loop *)

Section AggregationMore.

Lemma first_unmatched (d : pydict) :
  forallb keyword_matched (map fst d) = false ->
  exists before label prob after,
    d = (before ++ (label, prob) :: after)%list
    /\ forallb keyword_matched (map fst before) = true
    /\ keyword_matched label = false.
Proof.
  induction d as [|[l p] rest IH]; intros H; [discriminate|].
  cbn [map fst forallb] in H.
  destruct (keyword_matched l) eqn:E.
  - cbn [andb] in H. destruct (IH H) as (before & label & prob & after
                                          & -> & Hb & Hl).
    exists ((l, p) :: before), label, prob, after.
    repeat split; trivial. cbn [map fst forallb]. now rewrite E, Hb.
  - exists [], l, p, rest. now repeat split.
Qed.

(** X4.  The aggregation of lines 194-202 returns exactly when every label
    of the distribution is classified by a keyword rule, and then the
    grouped dictionary has the three categories as its keys, in order.
    Otherwise it stops at the first label that no rule classifies, with
    [KeyError] on that label, after mapping the labels up to it. *)
Theorem aggregation_returns_iff_all_classified (d : pydict) (g : globals) :
  (forallb keyword_matched (map fst d) = true ->
   exists grouped,
     group_confidence d empty_grouped_confidence g
     = (Ret grouped, g, mapping_events d)
     /\ map fst grouped = main_categories)
  /\ (forallb keyword_matched (map fst d) = false ->
      exists before label prob after,
        d = (before ++ (label, prob) :: after)%list
        /\ forallb keyword_matched (map fst before) = true
        /\ keyword_matched label = false
        /\ group_confidence d empty_grouped_confidence g
           = (Raise (KeyError (KStr label)), g,
              mapping_events (before ++ [(label, prob)])%list)).
Proof.
  split; intros H.
  - destruct (group_confidence_matched d fzero fzero fzero g H)
      as (a & b & c & Hrun & _).
    exists (grouped_of a b c). now split.
  - destruct (first_unmatched d H) as (before & label & prob & after
                                        & -> & Hb & Hl).
    exists before, label, prob, after. repeat split; trivial.
    exact (group_confidence_pass_through before label prob after
             fzero fzero fzero g Hb Hl).
Qed.

(** The loop on classified labels, bucket by bucket. *)
Lemma group_confidence_buckets (items : pydict) (a b c : pyfloat)
    (g : globals) :
  forallb keyword_matched (map fst items) = true ->
  group_confidence items (grouped_of a b c) g
  = (Ret (grouped_of
            (fold_left fadd
               (map snd (filter (fun item =>
                  String.eqb (map_to_main_category (fst item))
                    CONFIRMED_PLANET) items)) a)
            (fold_left fadd
               (map snd (filter (fun item =>
                  String.eqb (map_to_main_category (fst item))
                    CANDIDATE_PLANET) items)) b)
            (fold_left fadd
               (map snd (filter (fun item =>
                  String.eqb (map_to_main_category (fst item))
                    FALSE_POSITIVE) items)) c)),
     g, mapping_events items).
Proof.
  revert a b c.
  induction items as [|[label prob] rest IH]; intros a b c Hall;
    [reflexivity|].
  cbn [map fst forallb] in Hall. apply andb_true_iff in Hall as [Hl Hrest].
  rewrite (group_confidence_step label prob rest a b c g Hl).
  cbn [filter fst mapping_events map].
  destruct (map_matched label Hl) as [E | [E | E]]; rewrite E.
  - change (step_bucket CONFIRMED_PLANET prob a b c)
      with (grouped_of (fadd a prob) b c).
    rewrite (IH _ _ _ Hrest). reflexivity.
  - change (step_bucket CANDIDATE_PLANET prob a b c)
      with (grouped_of a (fadd b prob) c).
    rewrite (IH _ _ _ Hrest). reflexivity.
  - change (step_bucket FALSE_POSITIVE prob a b c)
      with (grouped_of a b (fadd c prob)).
    rewrite (IH _ _ _ Hrest). reflexivity.
Qed.

(** X5.  When every label is classified, each bucket of the grouped
    dictionary holds the sum, taken in the order of the distribution and
    starting from 0.0, of the probabilities of the labels that map to its
    category. *)
Theorem grouped_buckets_are_category_sums (d : pydict) (g : globals) :
  forallb keyword_matched (map fst d) = true ->
  group_confidence d empty_grouped_confidence g
  = (Ret [(CONFIRMED_PLANET, category_mass CONFIRMED_PLANET d);
          (CANDIDATE_PLANET, category_mass CANDIDATE_PLANET d);
          (FALSE_POSITIVE, category_mass FALSE_POSITIVE d)],
     g, mapping_events d).
Proof.
  intros H.
  exact (group_confidence_buckets d fzero fzero fzero g H).
Qed.

Lemma grouped_buckets_are_category_sums_sample :
  group_confidence
    [("CONFIRMED", FFin (1 # 2)); ("CP", FFin (1 # 4)); ("FA", FFin (1 # 8));
     ("KP", FFin (1 # 8))]
    empty_grouped_confidence (startup Sample.no_pickles)
  = (Ret [(CONFIRMED_PLANET,
           category_mass CONFIRMED_PLANET
             [("CONFIRMED", FFin (1 # 2)); ("CP", FFin (1 # 4));
              ("FA", FFin (1 # 8)); ("KP", FFin (1 # 8))]);
          (CANDIDATE_PLANET,
           category_mass CANDIDATE_PLANET
             [("CONFIRMED", FFin (1 # 2)); ("CP", FFin (1 # 4));
              ("FA", FFin (1 # 8)); ("KP", FFin (1 # 8))]);
          (FALSE_POSITIVE,
           category_mass FALSE_POSITIVE
             [("CONFIRMED", FFin (1 # 2)); ("CP", FFin (1 # 4));
              ("FA", FFin (1 # 8)); ("KP", FFin (1 # 8))])],
     startup Sample.no_pickles,
     mapping_events
       [("CONFIRMED", FFin (1 # 2)); ("CP", FFin (1 # 4));
        ("FA", FFin (1 # 8)); ("KP", FFin (1 # 8))]).
Proof.
  apply (grouped_buckets_are_category_sums
           [("CONFIRMED", FFin (1 # 2)); ("CP", FFin (1 # 4));
            ("FA", FFin (1 # 8)); ("KP", FFin (1 # 8))]).
  reflexivity.
Defined.

End AggregationMore.

(** ** The detailed distribution *)

Section DetailedMore.

Lemma dict_get_None (k : string) (d : pydict) :
  Dict.get String.eqb k d = None <-> ~ In k (map fst d).
Proof.
  induction d as [|[k' v] rest IH]; cbn [Dict.get map fst In].
  - tauto.
  - destruct (String.eqb_spec k' k) as [->|Hne].
    + split; [discriminate | intros H; exfalso; apply H; now left].
    + rewrite IH. tauto.
Qed.

Lemma dict_set_absent (k : string) (v : pyfloat) (d : pydict) :
  ~ In k (map fst d) -> Dict.set String.eqb k v d = (d ++ [(k, v)])%list.
Proof.
  induction d as [|[k' v'] rest IH]; cbn [Dict.set map fst In app];
    intros H; [reflexivity|].
  destruct (String.eqb_spec k' k) as [->|Hne]; [tauto|].
  rewrite IH by tauto. reflexivity.
Qed.

Lemma dict_set_keys (k : string) (v : pyfloat) (d : pydict) :
  map fst (Dict.set String.eqb k v d)
  = if Dict.mem String.eqb k d then map fst d
    else (map fst d ++ [k])%list.
Proof.
  unfold Dict.mem.
  induction d as [|[k' v'] rest IH]; cbn [Dict.set Dict.get map fst app];
    [reflexivity|].
  destruct (String.eqb k' k); [reflexivity|].
  cbn [map fst]. rewrite IH.
  now destruct (Dict.get String.eqb k rest).
Qed.

Lemma dict_get_set_same (k : string) (v : pyfloat) (d : pydict) :
  Dict.get String.eqb k (Dict.set String.eqb k v d) = Some v.
Proof.
  induction d as [|[k' v'] rest IH]; cbn [Dict.set Dict.get].
  - now rewrite String.eqb_refl.
  - destruct (String.eqb k' k) eqn:E; cbn [Dict.get]; now rewrite E.
Qed.

Lemma dict_set_NoDup (k : string) (v : pyfloat) (d : pydict) :
  NoDup (map fst d) -> NoDup (map fst (Dict.set String.eqb k v d)).
Proof.
  intros H. rewrite dict_set_keys. unfold Dict.mem.
  destruct (Dict.get String.eqb k d) eqn:E; [exact H|].
  apply dict_get_None in E.
  apply NoDup_app; [exact H | repeat constructor; intros [] | ].
  intros x Hx [<- | []]. contradiction.
Qed.

Lemma detailed_of_NoDup (le : LabelEncoder) (items : list (Z * pyfloat))
    (acc : pydict) :
  NoDup (map fst acc) -> NoDup (map fst (detailed_of le items acc)).
Proof.
  revert acc. induction items as [|[i p] rest IH]; intros acc H; [exact H|].
  apply IH, dict_set_NoDup, H.
Qed.

Lemma detailed_of_distinct (le : LabelEncoder) (items : list (Z * pyfloat))
    (acc : pydict) :
  NoDup (map fst acc
         ++ map (fun item => inverse_transform le (fst item)) items)%list ->
  detailed_of le items acc
  = (acc ++ map (fun item => (inverse_transform le (fst item), snd item))
              items)%list.
Proof.
  revert acc. induction items as [|[i p] rest IH]; intros acc H.
  - cbn. now rewrite app_nil_r.
  - cbn [detailed_of fold_left map fst snd] in *.
    fold (detailed_of le rest
            (Dict.set String.eqb (inverse_transform le i) p acc)).
    rewrite dict_set_absent.
    + rewrite IH.
      * now rewrite <- app_assoc.
      * rewrite map_app. cbn [map fst app]. now rewrite <- app_assoc.
    + apply NoDup_remove_2 in H. intros Hin. apply H.
      apply in_or_app. now left.
Qed.

Lemma dict_get_set_other (k k' : string) (v : pyfloat) (d : pydict) :
  k <> k' ->
  Dict.get String.eqb k (Dict.set String.eqb k' v d)
  = Dict.get String.eqb k d.
Proof.
  intros Hne. induction d as [|[k0 v0] rest IH]; cbn [Dict.set Dict.get].
  - destruct (String.eqb_spec k' k); [congruence | reflexivity].
  - destruct (String.eqb_spec k0 k') as [->|H0]; cbn [Dict.get].
    + destruct (String.eqb_spec k' k); [congruence | reflexivity].
    + now rewrite IH.
Qed.

Lemma detailed_of_get_later (le : LabelEncoder)
    (items : list (Z * pyfloat)) (acc : pydict) (k : string) :
  ~ In k (map (fun item => inverse_transform le (fst item)) items) ->
  Dict.get String.eqb k (detailed_of le items acc)
  = Dict.get String.eqb k acc.
Proof.
  revert acc. induction items as [|[i p] rest IH]; intros acc H;
    [reflexivity|].
  cbn [map fst In] in H.
  change (detailed_of le ((i, p) :: rest) acc)
    with (detailed_of le rest
            (Dict.set String.eqb (inverse_transform le i) p acc)).
  rewrite IH by tauto. apply dict_get_set_other.
  intros ->. tauto.
Qed.

Lemma detailed_of_app (le : LabelEncoder) (before after : list (Z * pyfloat))
    (acc : pydict) :
  detailed_of le (before ++ after) acc
  = detailed_of le after (detailed_of le before acc).
Proof. unfold detailed_of. apply fold_left_app. Qed.

(** X6.  The dictionary comprehension of lines 188-191 decodes every index
    in turn and yields a dictionary without repeated labels.  When the
    decoded labels are pairwise distinct it pairs each label with its
    probability, in index order; a label decoded again keeps its place and
    takes the later probability, so the last index of a label decides its
    entry. *)
Theorem detailed_confidence_entries (le : LabelEncoder)
    (items : list (Z * pyfloat)) (g : globals) :
  exists detailed,
    detailed_confidence_from le items [] g
    = (Ret detailed, g, map (fun item => InverseTransform (fst item)) items)
    /\ NoDup (map fst detailed)
    /\ (NoDup (map (fun item => inverse_transform le (fst item)) items) ->
        detailed
        = map (fun item => (inverse_transform le (fst item), snd item)) items)
    /\ (forall before i p after,
          items = (before ++ (i, p) :: after)%list ->
          ~ In (inverse_transform le i)
              (map (fun item => inverse_transform le (fst item)) after) ->
          Dict.get String.eqb (inverse_transform le i) detailed = Some p).
Proof.
  exists (detailed_of le items []).
  split; [apply detailed_confidence_from_run|].
  split; [apply detailed_of_NoDup; constructor|].
  split.
  - intros H. now rewrite detailed_of_distinct.
  - intros before i p after -> Hlast. rewrite detailed_of_app.
    change (detailed_of le ((i, p) :: after) (detailed_of le before []))
      with (detailed_of le after
              (Dict.set String.eqb (inverse_transform le i) p
                 (detailed_of le before []))).
    rewrite detailed_of_get_later by assumption.
    apply dict_get_set_same.
Qed.

End DetailedMore.

(** ** Validation and the calls on the artifacts *)

Section ValidationMore.
Variable float_of_str : string -> option pyfloat.

Lemma first_missing_In (data : pyval) (fields : list string)
    (field : string) :
  first_missing data fields = Ret (Some field) -> In field fields.
Proof.
  induction fields as [|f rest IH]; cbn [first_missing]; [discriminate|].
  destruct (py_in f data) as [[|]|e]; intros H.
  - right. now apply IH.
  - injection H as <-. now left.
  - discriminate.
Qed.

Lemma first_missing_raises (data : pyval) (fields : list string) (e : exn) :
  first_missing data fields = Raise e -> e = TypeError.
Proof.
  induction fields as [|f rest IH]; cbn [first_missing]; [discriminate|].
  destruct (py_in f data) as [[|]|e'] eqn:Hin; intros H.
  - now apply IH.
  - discriminate.
  - injection H as <-. destruct data; cbn in Hin; congruence.
Qed.

Lemma range_failure_positive (input : input_echo) (text : string) :
  range_failure input = Some text -> PyStr.contains "positive" text = true.
Proof.
  unfold range_failure.
  destruct (fle0 (orbital_period input)); [intros [= <-]; reflexivity|].
  destruct (fle0 (transit_duration input)); [intros [= <-]; reflexivity|].
  destruct (fle0 (planetary_radius input)); [intros [= <-]; reflexivity|].
  discriminate.
Qed.

(** A body that is no object is answered before any field is coerced. *)
Lemma predict_non_object (data : pyval) (g : globals) (mdl : Classifier) :
  model g = Some mdl ->
  (forall items, data <> PyDict items) ->
  exists resp,
    predict float_of_str data g = (Ret resp, g, [])
    /\ (resp = (Error (Text "No data provided"), 400%Z)
        \/ (exists field,
              In field required_fields
              /\ resp = (Error (Text ("Missing required field: " ++ field)),
                         400%Z))
        \/ resp = (Error (PredictionError TypeError), 500%Z)).
Proof.
  intros Hm Hno.
  destruct (truthy data) eqn:T.
  2:{ rewrite (predict_no_data float_of_str data g mdl Hm T).
      eexists. split; [reflexivity|]. now left. }
  unfold predict, predict_try, try_except.
  rewrite bind_global, Hm, T. cbn [negb].
  unfold bind at 1. unfold lift at 1.
  destruct (first_missing data required_fields) as [[field|]|e] eqn:Hfm.
  - cbn. eexists. split; [reflexivity|]. right; left.
    exists field. split; [|reflexivity].
    exact (first_missing_In data required_fields field Hfm).
  - destruct data; try (now (exfalso; eapply Hno; reflexivity));
      cbn; eexists; (split; [reflexivity|]); now right; right.
  - rewrite (first_missing_raises data required_fields e Hfm).
    cbn. eexists. split; [reflexivity|]. now right; right.
Qed.

(** An object body: an answer before inference, or the inference stage on
    the features coerced from its three fields. *)
Lemma predict_object (items : list (string * pyval)) (g : globals)
    (mdl : Classifier) :
  model g = Some mdl ->
  (exists resp, predict float_of_str (PyDict items) g = (Ret resp, g, [])
                /\ rejected resp)
  \/ (exists v1 v2 v3 input,
        Dict.get String.eqb "orbital_period" items = Some v1
        /\ Dict.get String.eqb "transit_duration" items = Some v2
        /\ Dict.get String.eqb "planetary_radius" items = Some v3
        /\ coerce_fields float_of_str v1 v2 v3 = Ret input
        /\ range_failure input = None
        /\ predict float_of_str (PyDict items) g
           = try_except (predict_features mdl input) (fun _ => true)
               predict_except g).
Proof.
  intros Hm. unfold rejected.
  destruct items as [|item items'] eqn:Eitems.
  { left. rewrite (predict_no_data float_of_str (PyDict []) g mdl Hm)
      by reflexivity.
    eexists. split; [reflexivity|]. now left. }
  rewrite <- Eitems.
  assert (Hne : items <> []) by (rewrite Eitems; discriminate).
  clear Eitems.
  destruct (find (fun f => negb (Dict.mem String.eqb f items))
              required_fields) as [field|] eqn:Hfind.
  { left.
    rewrite (predict_missing_field float_of_str items g mdl field Hm Hne
               Hfind).
    eexists. split; [reflexivity|]. right; left. exists field.
    split; [|reflexivity]. now apply find_some in Hfind as [H _]. }
  unfold required_fields, Dict.mem in Hfind. cbn [find] in Hfind.
  destruct (Dict.get String.eqb "orbital_period" items) as [v1|] eqn:G1;
    [|discriminate].
  destruct (Dict.get String.eqb "transit_duration" items) as [v2|] eqn:G2;
    [|discriminate].
  destruct (Dict.get String.eqb "planetary_radius" items) as [v3|] eqn:G3;
    [|discriminate].
  clear Hfind.
  rewrite (predict_fields_present float_of_str items g mdl v1 v2 v3
             Hm G1 G2 G3).
  destruct (coerce_fields float_of_str v1 v2 v3) as [input|e] eqn:Hc.
  - destruct (range_failure input) as [text|] eqn:Hr.
    + left. eexists. split; [reflexivity|]. do 4 right.
      exists text. split; [|reflexivity].
      exact (range_failure_positive input text Hr).
    + right. exists v1, v2, v3, input. now repeat split.
  - left. eexists. split; [reflexivity|].
    destruct e; cbn [is_ValueError];
      solve [right; right; left; eexists; reflexivity
            | right; right; right; left; eexists; (split; [|reflexivity]);
              reflexivity].
Qed.

(** Every run of the view: an answer before inference, or the inference
    stage on the coerced features. *)
Lemma predict_cases (data : pyval) (g : globals) (mdl : Classifier) :
  model g = Some mdl ->
  (exists resp, predict float_of_str data g = (Ret resp, g, [])
                /\ rejected resp)
  \/ (exists input,
        range_failure input = None
        /\ predict float_of_str data g
           = try_except (predict_features mdl input) (fun _ => true)
               predict_except g).
Proof.
  intros Hm.
  assert (Hdict : (exists items, data = PyDict items)
                  \/ (forall items, data <> PyDict items)).
  { destruct data; try (right; intros ?; discriminate).
    left. now eexists. }
  destruct Hdict as [[items ->] | Hno].
  - destruct (predict_object items g mdl Hm)
      as [H | (v1 & v2 & v3 & input & _ & _ & _ & _ & Hr & Hrun)];
      [now left|].
    right. now exists input.
  - left. destruct (predict_non_object data g mdl Hm Hno)
      as (resp & Hrun & [-> | [(field & Hin & ->) | ->]]);
      eexists; (split; [exact Hrun|]); unfold rejected.
    + now left.
    + right; left. now exists field.
    + right; right; right; left. exists TypeError. now split.
Qed.

Lemma filter_inference_decodes (items : list (Z * pyfloat)) :
  filter is_inference (map (fun item => InverseTransform (fst item)) items)
  = [].
Proof. induction items as [|item rest IH]; [reflexivity | exact IH]. Qed.

Lemma group_confidence_calls (items grouped : pydict) (g : globals) :
  exists r t,
    group_confidence items grouped g = (r, g, t)
    /\ filter is_inference t = []
    /\ ((exists d, r = Ret d) \/ (exists key, r = Raise (KeyError key))).
Proof.
  revert grouped. induction items as [|[label prob] rest IH]; intros grouped.
  - do 2 eexists. split; [reflexivity|]. split; [reflexivity|].
    left. now eexists.
  - rewrite group_confidence_cons.
    destruct (Dict.get String.eqb (map_to_main_category label) grouped)
      as [old|].
    + destruct (IH (Dict.set String.eqb (map_to_main_category label)
                      (fadd old prob) grouped)) as (r & t & -> & Hf & H).
      cbn. do 2 eexists. split; [reflexivity|]. now split.
    + do 2 eexists. split; [reflexivity|]. split; [reflexivity|].
      right. now eexists.
Qed.

(** The inference stage calls the scaler, if loaded, once on the raw
    features, the classifier once on the features it then has, and
    [predict_proba], if the classifier has it, once on the same
    features. *)
Lemma predict_features_calls (g : globals) (mdl : Classifier)
    (input : input_echo) :
  exists r t,
    predict_features mdl input g = (r, g, t)
    /\ filter is_inference t = expected_calls g mdl input
    /\ ((exists c,
           r = Ret (Prediction (prediction_label_of g mdl input) input c,
                    200%Z))
        \/ (exists key, r = Raise (KeyError key))).
Proof.
  unfold predict_features, expected_calls, prediction_label_of, model_input,
    confidence_try, try_except, call_map_to_main_category,
    bind, global, emit, ret, raise.
  destruct (label_encoder g) as [le|] eqn:Hle;
    destruct (model_predict_proba mdl) as [proba|] eqn:Hproba;
    destruct (scaler g) as [sc|];
    cbn -[enumerate detailed_confidence_from group_confidence
          flat_confidence_from Dict.get filter];
    rewrite ?Hle, ?Hproba;
    cbn -[enumerate detailed_confidence_from group_confidence
          flat_confidence_from Dict.get filter];
    rewrite ?Hle.
  1,2: rewrite detailed_confidence_from_run;
    match goal with
    | |- context [group_confidence ?items ?grouped ?g0] =>
        destruct (group_confidence_calls items grouped g0)
          as (r & t & Hrun & Hf & [[d ->] | [key ->]]); rewrite Hrun
    end;
    cbn -[enumerate filter]; do 2 eexists; (split; [reflexivity|]);
    (split;
     [cbn [filter is_inference];
      rewrite ?app_nil_r, ?filter_app, filter_inference_decodes, Hf;
      reflexivity
     |solve [left; eexists; reflexivity | right; eexists; reflexivity]]).
  1,2: cbn -[filter]; do 2 eexists; (split; [reflexivity|]);
    (split; [reflexivity | left; eexists; reflexivity]).
  1,2: match goal with
    | |- context [flat_confidence_from ?items [] ?g0] =>
        destruct (flat_confidence_from_run items [] g0)
          as [[d Hd] | [i Hi]]; [rewrite Hd | rewrite Hi]
    end;
    cbn -[Dict.get filter]; do 2 eexists; (split; [reflexivity|]);
    (split;
     [reflexivity
     |solve [left; eexists; reflexivity | right; eexists; reflexivity]]).
  1,2: cbn -[Dict.get filter]; do 2 eexists; (split; [reflexivity|]);
    (split; [reflexivity | left; eexists; reflexivity]).
Qed.
Lemma handle_except_KeyError (data : pyval) (g : globals)
    (mdl : Classifier) (input : input_echo) (key : pykey) (t : list event) :
  predict float_of_str data g
  = try_except (predict_features mdl input) (fun _ => true) predict_except g ->
  predict_features mdl input g = (Raise (KeyError key), g, t) ->
  handle float_of_str (POST_predict data) g
  = ((Error (PredictionError (KeyError key)), 500%Z), g, t).
Proof.
  intros Hp Hrun. apply handle_predict. rewrite Hp.
  unfold try_except. rewrite Hrun. cbn. now rewrite app_nil_r.
Qed.

Lemma handle_except_Ret (data : pyval) (g : globals)
    (mdl : Classifier) (input : input_echo) (resp : response)
    (t : list event) :
  predict float_of_str data g
  = try_except (predict_features mdl input) (fun _ => true) predict_except g ->
  predict_features mdl input g = (Ret resp, g, t) ->
  handle float_of_str (POST_predict data) g = (resp, g, t).
Proof.
  intros Hp Hrun. apply handle_predict. rewrite Hp.
  unfold try_except. now rewrite Hrun.
Qed.

Lemma rejected_status (resp : response) :
  rejected resp -> (snd resp = 400 \/ snd resp = 500)%Z /\ snd resp <> 200%Z.
Proof.
  unfold rejected.
  intros [-> | [(f & _ & ->) | [(s & ->) | [(e & _ & ->) | (x & _ & ->)]]]];
    cbn; split; auto; discriminate.
Qed.


(** X8.  A body that is no JSON object (a list, a string, a number, a
    boolean, [None]) never reaches coercion or inference: it is answered,
    with no event, by "No data provided" (400), by a missing required
    field (400), or by the HTTP 500 of a [TypeError]. *)
Theorem non_object_body_is_refused (data : pyval) (g : globals)
    (mdl : Classifier) :
  model g = Some mdl ->
  (forall items, data <> PyDict items) ->
  exists resp,
    handle float_of_str (POST_predict data) g = (resp, g, [])
    /\ (resp = (Error (Text "No data provided"), 400%Z)
        \/ (exists field,
              In field required_fields
              /\ resp = (Error (Text ("Missing required field: " ++ field)),
                         400%Z))
        \/ resp = (Error (PredictionError TypeError), 500%Z)).
Proof.
  intros Hm Hno.
  destruct (predict_non_object data g mdl Hm Hno) as (resp & Hrun & H).
  exists resp. split; [now apply handle_predict | exact H].
Qed.

(** X9.  On a non-empty object that lacks a required field, the answer is
    HTTP 400 naming the first absent field in the order orbital_period,
    transit_duration, planetary_radius; no value is coerced and nothing is
    called. *)
Theorem first_absent_field_is_named (items : list (string * pyval))
    (g : globals) (mdl : Classifier) (field : string) :
  model g = Some mdl -> items <> [] ->
  find (fun f => negb (Dict.mem String.eqb f items)) required_fields
  = Some field ->
  handle float_of_str (POST_predict (PyDict items)) g
  = ((Error (Text ("Missing required field: " ++ field)), 400%Z), g, []).
Proof.
  intros Hm Hne Hfind.
  now apply handle_predict, (predict_missing_field float_of_str items g mdl).
Qed.

(** X10.  Of a non-empty object only the three required fields count: two
    bodies that agree on them get the same response, the same state and
    the same calls, whatever else they hold and in whatever order. *)
Theorem only_required_fields_count (items1 items2 : list (string * pyval))
    (g : globals) :
  items1 <> [] -> items2 <> [] ->
  (forall field, In field required_fields ->
     Dict.get String.eqb field items1 = Dict.get String.eqb field items2) ->
  handle float_of_str (POST_predict (PyDict items1)) g
  = handle float_of_str (POST_predict (PyDict items2)) g.
Proof.
  intros H1 H2 Hsame.
  assert (T1 : truthy (PyDict items1) = true) by (now destruct items1).
  assert (T2 : truthy (PyDict items2) = true) by (now destruct items2).
  unfold handle, dispatch, predict, try_except, predict_try, bind, global,
    lift, ret, first_missing, required_fields, py_in, py_getitem, Dict.mem.
  rewrite T1, T2.
  rewrite (Hsame "orbital_period") by (cbn; auto).
  rewrite (Hsame "transit_duration") by (cbn; auto).
  rewrite (Hsame "planetary_radius") by (cbn; auto).
  reflexivity.
Qed.

Lemma py_float_ValueError (v : pyval) (s : string) :
  py_float float_of_str v = Raise (ValueError s) ->
  v = PyStr s /\ float_of_str s = None.
Proof.
  destruct v; cbn [py_float]; try discriminate.
  - destruct (Z.abs z <? float_overflow_threshold)%Z; discriminate.
  - destruct (float_of_str s0) eqn:E; [discriminate|].
    intros [= <-]. now split.
Qed.

(** X11.  When the three fields are present and a coercion fails, the
    first failure in field order decides the answer, before any range
    check and with no call: HTTP 400 "Invalid input value" when it is the
    [ValueError] of a string that is no float literal, HTTP 500 otherwise
    ([None], a list, an object, an integer out of float range). *)
Theorem first_coercion_failure_decides (items : list (string * pyval))
    (g : globals) (mdl : Classifier) (v1 v2 v3 : pyval) (e : exn) :
  model g = Some mdl ->
  Dict.get String.eqb "orbital_period" items = Some v1 ->
  Dict.get String.eqb "transit_duration" items = Some v2 ->
  Dict.get String.eqb "planetary_radius" items = Some v3 ->
  coerce_fields float_of_str v1 v2 v3 = Raise e ->
  handle float_of_str (POST_predict (PyDict items)) g
  = ((if is_ValueError e then (Error (InvalidInputValue e), 400%Z)
      else (Error (PredictionError e), 500%Z)), g, [])
  /\ (is_ValueError e = true ->
      exists s, e = ValueError s /\ float_of_str s = None
                /\ In (PyStr s) [v1; v2; v3]).
Proof.
  intros Hm G1 G2 G3 Hc. split.
  - apply handle_predict.
    rewrite (predict_fields_present float_of_str items g mdl v1 v2 v3
               Hm G1 G2 G3).
    now rewrite Hc.
  - intros He. destruct e; try discriminate He. exists literal.
    unfold coerce_fields in Hc.
    destruct (py_float float_of_str v1) as [x1|e1] eqn:F1.
    2:{ injection Hc as ->.
        destruct (py_float_ValueError v1 literal F1) as [-> Hs].
        repeat split; trivial. now left. }
    destruct (py_float float_of_str v2) as [x2|e2] eqn:F2.
    2:{ injection Hc as ->.
        destruct (py_float_ValueError v2 literal F2) as [-> Hs].
        repeat split; trivial. right. now left. }
    destruct (py_float float_of_str v3) as [x3|e3] eqn:F3; [discriminate|].
    injection Hc as ->.
    destruct (py_float_ValueError v3 literal F3) as [-> Hs].
    repeat split; trivial. right. right. now left.
Qed.



End ValidationMore.

Lemma non_object_body_is_refused_sample :
  exists resp,
    handle Sample.float_of_str (POST_predict Examples.names_list_body)
      (startup Sample.bare_pickles)
    = (resp, startup Sample.bare_pickles, [])
    /\ (resp = (Error (Text "No data provided"), 400%Z)
        \/ (exists field,
              In field required_fields
              /\ resp = (Error (Text ("Missing required field: " ++ field)),
                         400%Z))
        \/ resp = (Error (PredictionError TypeError), 500%Z)).
Proof.
  apply (non_object_body_is_refused Sample.float_of_str
           Examples.names_list_body (startup Sample.bare_pickles)
           (Sample.bare_classifier 1)).
  - reflexivity.
  - intros items. discriminate.
Defined.

Lemma first_absent_field_is_named_sample :
  handle Sample.float_of_str
    (POST_predict (PyDict Examples.no_duration_items))
    (startup Sample.bare_pickles)
  = ((Error (Text ("Missing required field: " ++ "transit_duration")),
      400%Z), startup Sample.bare_pickles, []).
Proof.
  apply (first_absent_field_is_named Sample.float_of_str
           Examples.no_duration_items (startup Sample.bare_pickles)
           (Sample.bare_classifier 1) "transit_duration").
  - reflexivity.
  - discriminate.
  - reflexivity.
Defined.

Lemma only_required_fields_count_sample :
  handle Sample.float_of_str (POST_predict (PyDict Examples.good_items))
    (startup Sample.fp_pickles)
  = handle Sample.float_of_str
      (POST_predict (PyDict Examples.reordered_items))
      (startup Sample.fp_pickles).
Proof.
  apply (only_required_fields_count Sample.float_of_str
           Examples.good_items Examples.reordered_items
           (startup Sample.fp_pickles)).
  - discriminate.
  - discriminate.
  - intros field [<- | [<- | [<- | []]]]; reflexivity.
Defined.

Lemma first_coercion_failure_decides_sample :
  handle Sample.float_of_str (POST_predict (PyDict Examples.abc_items))
    (startup Sample.bare_pickles)
  = ((if is_ValueError (ValueError "abc")
      then (Error (InvalidInputValue (ValueError "abc")), 400%Z)
      else (Error (PredictionError (ValueError "abc")), 500%Z)),
     startup Sample.bare_pickles, [])
  /\ (is_ValueError (ValueError "abc") = true ->
      exists s, ValueError "abc" = ValueError s
                /\ Sample.float_of_str s = None
                /\ In (PyStr s) [PyInt (-5); PyStr "abc"; PyInt 1]).
Proof.
  apply (first_coercion_failure_decides Sample.float_of_str
           Examples.abc_items (startup Sample.bare_pickles)
           (Sample.bare_classifier 1)).
  - reflexivity.
  - reflexivity.
  - reflexivity.
  - reflexivity.
  - vm_compute. reflexivity.
Defined.


(** ** The confidence entry, with and without label encoder *)

Section ConfidenceMore.
Variable float_of_str : string -> option pyfloat.




End ConfidenceMore.



(** ** The routes together *)

Section RoutesMore.
Variable float_of_str : string -> option pyfloat.

Lemma rejected_is_error (resp : response) :
  rejected resp -> exists m, fst resp = Error m.
Proof.
  unfold rejected.
  intros [-> | [(f & _ & ->) | [(s & ->) | [(e & _ & ->) | (x & _ & ->)]]]];
    eexists; reflexivity.
Qed.

(** X15.  The prediction of a response of /predict is one of the three
    categories, or "Unknown" when no label encoder is loaded, or, with an
    encoder, the decoded label itself when no keyword rule classifies it;
    such a response has status 200. *)
Theorem prediction_values (p : pickles) (data : pyval)
    (prediction : string) (input : input_echo) (c : option confidence)
    (status : Z) (g' : globals) (t : list event) :
  handle float_of_str (POST_predict data) (startup p)
  = ((Prediction prediction input c, status), g', t) ->
  status = 200%Z
  /\ (In prediction main_categories
      \/ (exoplanet_label_encoder p = None /\ prediction = "Unknown")
      \/ (exists le i,
            exoplanet_label_encoder p = Some le
            /\ prediction = inverse_transform le i
            /\ keyword_matched prediction = false)).
Proof.
  intros H.
  destruct (model (startup p)) as [mdl|] eqn:Hm.
  2:{ rewrite (handle_predict float_of_str data _ _ _ _
                 (predict_no_model float_of_str data _ Hm)) in H.
      discriminate H. }
  destruct (predict_cases float_of_str data (startup p) mdl Hm)
    as [(resp & Hrun & Hrej) | (input' & _ & Hp)].
  - rewrite (handle_predict float_of_str data _ _ _ _ Hrun) in H.
    destruct (rejected_is_error resp Hrej) as [m Hm'].
    injection H as -> _ _. discriminate Hm'.
  - destruct (predict_features_calls (startup p) mdl input')
      as (r & t' & Hrun & _ & [[c' ->] | [key ->]]).
    2:{ rewrite (handle_except_KeyError float_of_str data _ mdl input' key
                   t' Hp Hrun) in H.
        discriminate H. }
    rewrite (handle_except_Ret float_of_str data _ mdl input' _ t' Hp Hrun)
      in H.
    injection H as <- _ _ <- _ _. split; [reflexivity|].
    unfold prediction_label_of.
    rewrite label_encoder_startup.
    destruct (exoplanet_label_encoder p) as [le|] eqn:Hle.
    + destruct (keyword_matched
                  (inverse_transform le
                     (model_predict mdl (model_input (startup p) input'))))
        eqn:E.
      * left. unfold main_categories. cbn [In].
        destruct (map_matched _ E) as [-> | [-> | ->]]; auto.
      * right; right. rewrite (map_pass_through _ E).
        now exists le, (model_predict mdl (model_input (startup p) input')).
    + rewrite (class_labels_startup p Hle), static_lookup.
      unfold static_category, main_categories. cbn [In].
      destruct (_ =? 0)%Z; [auto|].
      destruct (_ =? 1)%Z; [auto|].
      destruct (_ =? 2)%Z; [auto|].
      right; left. now split.
Qed.

Lemma enumerate_from_lookup {A : Type} (xs : list A) (k i : Z) :
  Dict.get Z.eqb i (enumerate_from k xs)
  = if (i <? k)%Z then None else nth_error xs (Z.to_nat (i - k)).
Proof.
  revert k. induction xs as [|x rest IH]; intros k; cbn [enumerate_from
    Dict.get].
  - destruct (i <? k)%Z; [reflexivity|]. now destruct (Z.to_nat (i - k)).
  - destruct (Z.eqb_spec k i) as [->|Hne].
    + rewrite Z.ltb_irrefl, Z.sub_diag. reflexivity.
    + rewrite IH.
      destruct (Z.ltb_spec i (k + 1)), (Z.ltb_spec i k); try lia;
        [reflexivity|].
      replace (Z.to_nat (i - k)) with (S (Z.to_nat (i - (k + 1)))) by lia.
      reflexivity.
Qed.

(** X16.  When the label encoder is loaded, [CLASS_LABELS] maps each index
    from 0 to the class of the encoder at that position, and has no other
    key. *)
Theorem class_labels_follow_the_encoder (p : pickles) (le : LabelEncoder)
    (i : Z) :
  exoplanet_label_encoder p = Some le ->
  Dict.get Z.eqb i (CLASS_LABELS (startup p))
  = if (i <? 0)%Z then None else nth_error (classes_ le) (Z.to_nat i).
Proof.
  intros Hle. unfold startup. rewrite Hle. cbn [CLASS_LABELS].
  unfold enumerate. rewrite enumerate_from_lookup. now rewrite Z.sub_0_r.
Qed.

(** X17.  No view raises: every request is answered by its view, and the
    application's "Internal server error" answer is never produced.  The
    three GET routes always answer 200 and call nothing (the [except]
    clause of /performance is never taken), an unmatched route answers
    404, and /predict answers 200, 400 or 500. *)
Theorem views_never_raise (r : request) (g : globals) :
  exists resp t,
    dispatch float_of_str r g = (Ret resp, g, t)
    /\ handle float_of_str r g = (resp, g, t)
    /\ resp <> internal_error
    /\ match r with
       | GET_root | GET_performance | GET_health =>
           snd resp = 200%Z /\ t = []
       | Unmatched =>
           resp = (Error (Text "Endpoint not found"), 404%Z) /\ t = []
       | POST_predict _ =>
           (snd resp = 200 \/ snd resp = 400 \/ snd resp = 500)%Z
       end.
Proof.
  destruct r as [|data| | |].
  - do 2 eexists. repeat split; discriminate.
  - destruct (model g) as [mdl|] eqn:Hm.
    2:{ pose proof (predict_no_model float_of_str data g Hm) as Hrun.
        do 2 eexists. split; [exact Hrun|].
        split; [now apply handle_predict|]. split; [discriminate|].
        cbn. auto. }
    destruct (predict_cases float_of_str data g mdl Hm)
      as [(resp & Hrun & Hrej) | (input & _ & Hp)].
    + exists resp, []. split; [exact Hrun|].
      split; [now apply handle_predict|].
      destruct (rejected_status resp Hrej) as [Hs _].
      split; [|tauto].
      unfold rejected in Hrej.
      destruct Hrej
        as [-> | [(f & _ & ->) | [(s & ->) | [(e & _ & ->) | (x & _ & ->)]]]];
        discriminate.
    + destruct (predict_features_calls g mdl input)
        as (r & t & Hrun & _ & [[c ->] | [key ->]]).
      * pose proof (handle_except_Ret float_of_str data g mdl input _ t
                      Hp Hrun) as Hh.
        do 2 eexists. split; [|split; [exact Hh|]].
        -- cbn [dispatch]. rewrite Hp. unfold try_except. now rewrite Hrun.
        -- split; [discriminate | cbn; auto].
      * pose proof (handle_except_KeyError float_of_str data g mdl input
                      key t Hp Hrun) as Hh.
        do 2 eexists. split; [|split; [exact Hh|]].
        -- cbn [dispatch]. rewrite Hp. unfold try_except. rewrite Hrun.
           cbn. now rewrite app_nil_r.
        -- split; [discriminate | cbn; auto].
  - do 2 eexists. repeat split; discriminate.
  - do 2 eexists. repeat split; discriminate.
  - do 2 eexists. repeat split; discriminate.
Qed.

(** X18.  /health reports which artifacts the handlers will find, and the
    flags say how /predict behaves on any body: [model_loaded] is false
    exactly when /predict answers "Model not loaded" with HTTP 500; with
    [scaler_loaded] false the scaler is never called; with
    [label_encoder_loaded] false nothing is decoded and the label mapping
    is never called. *)
Theorem health_flags_match_predict (g : globals) (data : pyval) :
  handle float_of_str GET_health g
  = ((Health (is_some (model g)) (is_some (scaler g))
        (is_some (label_encoder g)), 200%Z), g, [])
  /\ (is_some (model g) = false
      <-> fst (fst (handle float_of_str (POST_predict data) g))
          = (Error (Text "Model not loaded. Please ensure model.pkl exists."),
             500%Z))
  /\ (is_some (scaler g) = false ->
      forall x, ~ In (Transform x)
                  (snd (handle float_of_str (POST_predict data) g)))
  /\ (is_some (label_encoder g) = false ->
      existsb is_decoding (snd (handle float_of_str (POST_predict data) g))
      = false).
Proof.
  split; [reflexivity|].
  destruct (model g) as [mdl|] eqn:Hm.
  2:{ rewrite (handle_predict float_of_str data _ _ _ _
                 (predict_no_model float_of_str data g Hm)).
      cbn. repeat split; auto; intros _ x []. }
  cbn [is_some].
  destruct (predict_cases float_of_str data g mdl Hm)
    as [(resp & Hrun & Hrej) | (input & _ & Hp)].
  - rewrite (handle_predict float_of_str data _ _ _ _ Hrun). cbn [fst snd].
    split; [|split; [intros _ x [] | reflexivity]].
    split; [discriminate|]. intros ->.
    unfold rejected in Hrej.
    destruct Hrej
      as [H | [(f & _ & H) | [(s & H) | [(e & _ & H) | (x & _ & H)]]]];
      discriminate H.
  - destruct (predict_features_calls g mdl input)
      as (r & t & Hrun & Hcalls & Hshape).
    assert (Hh : exists resp,
      handle float_of_str (POST_predict data) g = (resp, g, t)
      /\ resp <> (Error (Text
                    "Model not loaded. Please ensure model.pkl exists."),
                  500%Z)).
    { destruct Hshape as [[c ->] | [key ->]].
      - eexists. split;
          [exact (handle_except_Ret float_of_str data g mdl input _ t
                    Hp Hrun) | discriminate].
      - eexists. split;
          [exact (handle_except_KeyError float_of_str data g mdl input key
                    t Hp Hrun) | discriminate]. }
    destruct Hh as (resp & -> & Hne). cbn [fst snd].
    split; [split; [discriminate | intros ->; contradiction]|].
    split.
    + intros Hsc x Hin.
      assert (Hf : In (Transform x) (filter is_inference t))
        by (apply filter_In; now split).
      rewrite Hcalls in Hf. unfold expected_calls in Hf.
      destruct (scaler g); [discriminate Hsc|].
      cbn [app In] in Hf.
      destruct (model_predict_proba mdl); cbn [app In] in Hf;
        intuition discriminate.
    + intros Hle. destruct (label_encoder g) as [le|] eqn:Hle';
        [discriminate Hle|].
      destruct (predict_features_no_encoder g mdl input Hle')
        as (r' & t' & Hrun' & Hinf & _).
      rewrite Hrun in Hrun'. injection Hrun' as _ <-.
      clear - Hinf. induction t as [|e t IH]; [reflexivity|].
      cbn [forallb existsb] in *. apply andb_true_iff in Hinf as [He Ht].
      rewrite (IH Ht). now destruct e.
Qed.

(** X19.  /performance serves the same metrics whether or not the label
    encoder was found: the update of lines 82-87 writes the values the
    table already has. *)
Theorem performance_is_static (p : pickles) :
  handle float_of_str GET_performance (startup p)
  = ((MetricsBody static_metrics, 200%Z), startup p, []).
Proof.
  unfold startup. destruct (exoplanet_label_encoder p); reflexivity.
Qed.

End RoutesMore.

Lemma prediction_values_sample :
  200%Z = 200%Z
  /\ (In "Unknown" main_categories
      \/ (exoplanet_label_encoder (Sample.no_encoder_pickles 7) = None
          /\ "Unknown" = "Unknown")
      \/ (exists le i,
            exoplanet_label_encoder (Sample.no_encoder_pickles 7) = Some le
            /\ "Unknown" = inverse_transform le i
            /\ keyword_matched "Unknown" = false)).
Proof.
  apply (prediction_values Sample.float_of_str
           (Sample.no_encoder_pickles 7) Sample.good_body "Unknown"
           Sample.good_input None 200
           (startup (Sample.no_encoder_pickles 7))
           [Predict [FFin (105 # 10); FFin (21 # 10); FFin (inject_Z 1)]]).
  vm_compute. reflexivity.
Defined.

Lemma class_labels_follow_the_encoder_sample :
  Dict.get Z.eqb 1%Z (CLASS_LABELS (startup Examples.classified_pickles))
  = if (1 <? 0)%Z then None
    else nth_error
           (classes_ (Sample.encoder_of ["CONFIRMED"; "CP"; "FA"]))
           (Z.to_nat 1).
Proof.
  apply (class_labels_follow_the_encoder Examples.classified_pickles
           (Sample.encoder_of ["CONFIRMED"; "CP"; "FA"]) 1%Z).
  reflexivity.
Defined.
